(** * Amplitude asset pipeline: [scripts/common.py]

    A shallow embedding of the conversion helpers of [scripts/common.py]
    (path mapping, staleness check, schema lookup, build and clean loops)
    together with the properties stated about them in the design document. *)

From Stdlib Require Import ZArith Ascii String List Bool Lia.
From stdpp Require Import base option list gmap strings.

Import ListNotations.
Local Open Scope string_scope.
Local Open Scope Z_scope.

(** ** Python [str] operations used by the script

    Python strings are modelled by [string]; the script only uses
    [endswith], [startswith], [in] and [replace], which behave the same on
    the UTF-8 encoding as on code points. *)

Module Str.

(** [s.startswith(p)] *)
Fixpoint startswith (s p : string) {struct p} : bool :=
  match p, s with
  | EmptyString, _ => true
  | String _ _, EmptyString => false
  | String a p', String b s' => Ascii.eqb a b && startswith s' p'
  end.

(** [s.endswith(suf)] *)
Fixpoint endswith (s suf : string) : bool :=
  String.eqb s suf ||
  match s with
  | EmptyString => false
  | String _ s' => endswith s' suf
  end.

(** [sub in s] *)
Fixpoint contains (sub s : string) : bool :=
  startswith s sub ||
  match s with
  | EmptyString => false
  | String _ s' => contains sub s'
  end.

(** [s.replace("", new)]: [new] is put before every character and at the
    end. *)
Fixpoint replace_empty (s new : string) : string :=
  (new ++
   match s with
   | EmptyString => EmptyString
   | String c s' => String c (replace_empty s' new)
   end)%string.

(** Scan of [s.replace(old, new)] for a non-empty [old]: occurrences are
    replaced from left to right and do not overlap; [skip] counts the
    characters of the occurrence just replaced that are still to be
    dropped. *)
Fixpoint replace_scan (skip : nat) (s old new : string) : string :=
  match s with
  | EmptyString => EmptyString
  | String c s' =>
      match skip with
      | S k => replace_scan k s' old new
      | O =>
          if startswith s old
          then (new ++ replace_scan (Nat.pred (String.length old)) s' old new)%string
          else String c (replace_scan 0 s' old new)
      end
  end.

(** [s.replace(old, new)] *)
Definition replace (s old new : string) : string :=
  match old with
  | EmptyString => replace_empty s new
  | String _ _ => replace_scan 0 s old new
  end.

End Str.


(** ** Directory names and the path mapper *)

Definition SOUNDS_DIR_NAME : string := "sounds".
Definition COLLECTIONS_DIR_NAME : string := "collections".
Definition SOUNDBANKS_DIR_NAME : string := "soundbanks".
Definition EVENTS_DIR_NAME : string := "events".
Definition PIPELINES_DIR_NAME : string := "pipelines".
Definition ATTENUATORS_DIR_NAME : string := "attenuators".
Definition SWITCHES_DIR_NAME : string := "switches".
Definition SWITCH_CONTAINERS_DIR_NAME : string := "switch_containers".
Definition RTPC_DIR_NAME : string := "rtpc".
Definition EFFECTS_DIR_NAME : string := "effects".
Definition ENVIRONMENTS_DIR_NAME : string := "environments".

(** The conditional expression that [processed_json_path] passes as the
    replacement of [".json"], branch for branch. *)
Definition processed_extension (path : string) : string :=
  if Str.endswith path "config.json" then ".amconfig"
  else if Str.endswith path "buses.json" then ".ambus"
  else if Str.contains SOUNDBANKS_DIR_NAME path then ".ambank"
  else if Str.contains COLLECTIONS_DIR_NAME path then ".amcollection"
  else if Str.contains EVENTS_DIR_NAME path then ".amevent"
  else if Str.contains PIPELINES_DIR_NAME path then ".ampipeline"
  else if Str.contains ATTENUATORS_DIR_NAME path then ".amattenuation"
  else if Str.contains SWITCHES_DIR_NAME path then ".amswitch"
  else if Str.contains SWITCH_CONTAINERS_DIR_NAME path then ".amswitchcontainer"
  else if Str.contains RTPC_DIR_NAME path then ".amrtpc"
  else if Str.contains SOUNDS_DIR_NAME path then ".amsound"
  else if Str.contains ENVIRONMENTS_DIR_NAME path then ".amenv"
  else ".ambin".

(** [processed_json_path(path, input_path, output_path)] *)
Definition processed_json_path (path input_path output_path : string) : string :=
  Str.replace (Str.replace path ".json" (processed_extension path))
    input_path output_path.

(** [processed_json_filename] is [os.path.basename] of the above and is not
    used by the build or clean loops. *)

(** ** POSIX [os.path] helpers *)

Module Path.

(** One step of [os.path.join]: an absolute component restarts the path,
    otherwise it is appended with exactly one separator. *)
Definition join2 (a b : string) : string :=
  if Str.startswith b "/" then b
  else if String.eqb a "" || Str.endswith a "/" then (a ++ b)%string
  else (a ++ "/" ++ b)%string.

(** [os.path.join(a, *p)] *)
Definition join (a : string) (p : list string) : string := fold_left join2 p a.

(** [p[:p.rfind('/') + 1]] *)
Fixpoint head_part (p : string) : string :=
  match p with
  | EmptyString => EmptyString
  | String c p' =>
      let h := head_part p' in
      if negb (String.eqb h "") then String c h
      else if Ascii.eqb c "/" then "/" else EmptyString
  end.

(** [s.rstrip('/')] *)
Fixpoint rstrip_slash (s : string) : string :=
  match s with
  | EmptyString => EmptyString
  | String c s' =>
      let r := rstrip_slash s' in
      if String.eqb r "" && Ascii.eqb c "/" then EmptyString else String c r
  end.

(** [os.path.dirname(p)]: the head is kept as it is when it is empty or
    made of slashes only, and loses its trailing slashes otherwise. *)
Definition dirname (p : string) : string :=
  let head := head_part p in
  if String.eqb (rstrip_slash head) "" then head else rstrip_slash head.

(** The directories [os.makedirs(p)] walks through: every prefix of [p]
    that stops in front of a separator, then [p] itself. *)
Fixpoint dir_chain (pre p : string) : list string :=
  let here := if String.eqb pre "" || Str.endswith pre "/" then [] else [pre] in
  match p with
  | EmptyString => here
  | String c p' =>
      ((if Ascii.eqb c "/" then here else []) ++ dir_chain (pre ++ String c "")%string p')%list
  end.

End Path.

(** ** The file system and the external processes

    Paths name files verbatim (no normalisation, no links): the script only
    ever builds paths by string operations and hands them to the operating
    system.  Modification times are [Z] (only their order is used). *)

Inductive node : Type :=
| File (mtime : Z)
| Dir (mtime : Z).

Definition node_mtime (n : node) : Z :=
  match n with File m => m | Dir m => m end.

Record world : Type := World {
  files : gmap string node;
  now : Z
}.

(** What [subprocess.Popen(argv)] followed by [wait()] can do. *)
Inductive launch : Type :=
| LaunchError (strerror : string)
| Exited (returncode : Z) (after : world).

(** The collaborators the script does not define: the process launcher and
    [glob.glob(pattern, recursive=...)]. *)
Class Host : Type := {
  popen : list string -> world -> launch;
  glob : world -> string -> bool -> list string
}.

(** [os.path.isfile(p)] *)
Definition isfile (w : world) (p : string) : bool :=
  match files w !! p with
  | Some (File _) => true
  | _ => false
  end.

(** [os.path.exists(p)] *)
Definition path_exists (w : world) (p : string) : bool :=
  match files w !! p with
  | Some _ => true
  | None => false
  end.

(** [os.path.getmtime(p)]; [None] stands for the [OSError] it raises on a
    missing path. *)
Definition getmtime (w : world) (p : string) : option Z :=
  node_mtime <$> files w !! p.

(** [os.remove(p)] of an existing regular file. *)
Definition os_remove (p : string) (w : world) : world :=
  {| files := delete p (files w); now := now w |}.

(** [mkdir] of one directory of the chain when it is missing. *)
Definition mkdir_missing (t : Z) (q : string) (m : gmap string node) : gmap string node :=
  match m !! q with
  | Some _ => m
  | None => <[q := Dir t]> m
  end.

(** [os.makedirs(p)]: creates [p] and its missing ancestors; [None] stands
    for the [OSError] raised on an empty path, on an existing path, on a
    path that is no directory of its own chain (a root such as ["/"], which
    always exists), or when an ancestor is a regular file. *)
Definition makedirs (p : string) (w : world) : option world :=
  if String.eqb p "" then None
  else if path_exists w p then None
  else if negb (existsb (String.eqb p) (Path.dir_chain "" p)) then None
  else if existsb (isfile w) (Path.dir_chain "" p) then None
  else Some {| files := fold_right (mkdir_missing (now w)) (files w) (Path.dir_chain "" p);
               now := now w |}.

(** ** Exceptions and the state of a run *)

Inductive exn : Type :=
| BuildError (argv : list string) (error_code : Z) (message : string)
| OSError (filename : string).

Inductive result (A : Type) : Type :=
| Ok (a : A)
| Raise (e : exn).
Arguments Ok {A} a.
Arguments Raise {A} e.

(** One call of [subprocess.Popen]: the command line, the file system it
    was started on and what became of it. *)
Record spawn : Type := Spawn {
  argv : list string;
  before : world;
  outcome : launch
}.

(** A run threads the file system and the log of the processes started. *)
Record state : Type := State {
  os : world;
  spawned : list spawn
}.

Definition M (A : Type) : Type := state -> result A * state.

Definition ret {A} (a : A) : M A := fun s => (Ok a, s).
Definition raise {A} (e : exn) : M A := fun s => (Raise e, s).
Definition bind {A B} (c : M A) (k : A -> M B) : M B :=
  fun s => match c s with
           | (Ok a, s') => k a s'
           | (Raise e, s') => (Raise e, s')
           end.

Notation "x <- c ;; k" := (bind c (fun x => k))
  (at level 100, c at next level, right associativity).
Notation "c ;;; k" := (bind c (fun _ => k))
  (at level 100, right associativity).

(** A call that only reads the file system. *)
Definition observe {A} (f : world -> result A) : M A :=
  fun s => (f (os s), s).

(** A [for x in l: body(x)] loop. *)
Fixpoint for_each {A} (l : list A) (body : A -> M unit) : M unit :=
  match l with
  | [] => ret tt
  | x :: l' => body x ;;; for_each l' body
  end.

(** ** The functions of [scripts/common.py] *)

Record FlatbuffersConversionData : Type := {
  schema : string;
  input_files : list string
}.

Record CommandOptions : Type := {
  project_path : string;
  build_path : string;
  flatc_path : string;
  schema_path : string
}.

(** [needs_rebuild(source, target)]: [or] only evaluates the two
    [getmtime] calls when the target is a regular file, the source first. *)
Definition needs_rebuild (w : world) (source target : string) : result bool :=
  if negb (isfile w target) then Ok true
  else
    match getmtime w source with
    | None => Raise (OSError source)
    | Some ms =>
        match getmtime w target with
        | None => Raise (OSError target)
        | Some mt => Ok (mt <? ms)
        end
    end.

(** [find_in_paths(name, paths)] *)
Fixpoint find_in_paths (w : world) (name : string) (paths : list string) : string :=
  match paths with
  | [] => name
  | path :: rest =>
      let full_path := Path.join path [name] in
      if isfile w full_path then full_path else find_in_paths w name rest
  end.

Section Script.
Context `{Host}.

(** [run_subprocess(argv)] *)
Definition run_subprocess (argv : list string) : M unit :=
  fun s =>
    let started := (spawned s ++ [Spawn argv (os s) (popen argv (os s))])%list in
    match popen argv (os s) with
    | LaunchError e =>
        (Raise (BuildError argv 1 e), {| os := os s; spawned := started |})
    | Exited rc w' =>
        (if rc =? 0 then Ok tt else Raise (BuildError argv rc ""),
         {| os := w'; spawned := started |})
    end.

(** [convert_json_to_flatbuffers_binary(flatc, json, schema, out_dir, schema_path)] *)
Definition convert_json_to_flatbuffers_binary
    (flatc json schema out_dir schema_path : string) : M unit :=
  run_subprocess [flatc; "-o"; out_dir; "-I"; schema_path; "-b"; schema; json].

(** One entry of the list built by [get_conversion_data]. *)
Definition conversion_entry (w : world) (schema_paths : list string)
    (schema_name pattern : string) (recursive : bool) : FlatbuffersConversionData :=
  {| schema := find_in_paths w schema_name schema_paths;
     input_files := glob w pattern recursive |}.

(** [get_conversion_data(project_path, schema_paths)] *)
Definition get_conversion_data (w : world) (project_path : string)
    (schema_paths : list string) : list FlatbuffersConversionData :=
  [ conversion_entry w schema_paths "engine_config_definition.bfbs"
      (Path.join project_path ["*.config.json"]) false;
    conversion_entry w schema_paths "buses_definition.bfbs"
      (Path.join project_path ["*.buses.json"]) false;
    conversion_entry w schema_paths "sound_bank_definition.bfbs"
      (Path.join project_path [SOUNDBANKS_DIR_NAME; "**/*.json"]) true;
    conversion_entry w schema_paths "collection_definition.bfbs"
      (Path.join project_path [COLLECTIONS_DIR_NAME; "**/*.json"]) true;
    conversion_entry w schema_paths "sound_definition.bfbs"
      (Path.join project_path [SOUNDS_DIR_NAME; "**/*.json"]) true;
    conversion_entry w schema_paths "event_definition.bfbs"
      (Path.join project_path [EVENTS_DIR_NAME; "**/*.json"]) true;
    conversion_entry w schema_paths "pipeline_definition.bfbs"
      (Path.join project_path [PIPELINES_DIR_NAME; "**/*.json"]) true;
    conversion_entry w schema_paths "attenuation_definition.bfbs"
      (Path.join project_path [ATTENUATORS_DIR_NAME; "**/*.json"]) true;
    conversion_entry w schema_paths "switch_definition.bfbs"
      (Path.join project_path [SWITCHES_DIR_NAME; "**/*.json"]) true;
    conversion_entry w schema_paths "switch_container_definition.bfbs"
      (Path.join project_path [SWITCH_CONTAINERS_DIR_NAME; "**/*.json"]) true;
    conversion_entry w schema_paths "rtpc_definition.bfbs"
      (Path.join project_path [RTPC_DIR_NAME; "**/*.json"]) true;
    conversion_entry w schema_paths "effect_definition.bfbs"
      (Path.join project_path [EFFECTS_DIR_NAME; "**/*.json"]) true ].

(** The body of the inner loop of [generate_flatbuffers_binaries]. *)
Definition build_file (options : CommandOptions) (schema json : string) : M unit :=
  let target := processed_json_path json (project_path options) (build_path options) in
  let target_file_dir := Path.dirname target in
  present <- observe (fun w => Ok (path_exists w target_file_dir)) ;;
  (if negb present
   then fun s => match makedirs target_file_dir (os s) with
                 | Some w' => (Ok tt, {| os := w'; spawned := spawned s |})
                 | None => (Raise (OSError target_file_dir), s)
                 end
   else ret tt) ;;;
  stale_json <- observe (fun w => needs_rebuild w json target) ;;
  stale <- (if stale_json : bool then ret true
            else observe (fun w => needs_rebuild w schema target)) ;;
  if stale : bool
  then convert_json_to_flatbuffers_binary (flatc_path options) json schema
         target_file_dir (schema_path options)
  else ret tt.

(** [generate_flatbuffers_binaries(options)] *)
Definition generate_flatbuffers_binaries (options : CommandOptions) : M unit :=
  conversion_data <- observe (fun w =>
      Ok (get_conversion_data w (project_path options) [schema_path options])) ;;
  for_each conversion_data (fun element =>
    for_each (input_files element) (fun json =>
      build_file options (schema element) json)).

(** The body of the inner loop of [clean_flatbuffers_binaries]. *)
Definition clean_file (options : CommandOptions) (json : string) : M unit :=
  let path := processed_json_path json (project_path options) (build_path options) in
  regular <- observe (fun w => Ok (isfile w path)) ;;
  if regular : bool
  then fun s => (Ok tt, {| os := os_remove path (os s); spawned := spawned s |})
  else ret tt.

(** [clean_flatbuffers_binaries(options)] *)
Definition clean_flatbuffers_binaries (options : CommandOptions) : M unit :=
  conversion_data <- observe (fun w =>
      Ok (get_conversion_data w (project_path options) [schema_path options])) ;;
  for_each conversion_data (fun element =>
    for_each (input_files element) (fun json =>
      clean_file options json)).

End Script.

(** ** Reference descriptions used in the statements *)

(** A naming rule: a test on the source path and the extension it selects. *)
Definition rule : Type := (string -> bool) * string.

(** The first rule of a list that accepts the path decides; [".ambin"] is
    the fallback. *)
Fixpoint first_match (rules : list rule) (path : string) : string :=
  match rules with
  | [] => ".ambin"
  | (test, ext) :: rest => if test path then ext else first_match rest path
  end.

(** The rules in the order in which [processed_json_path] tests them. *)
Definition naming_rules : list rule :=
  [ (fun p => Str.endswith p "config.json", ".amconfig");
    (fun p => Str.endswith p "buses.json", ".ambus");
    (Str.contains SOUNDBANKS_DIR_NAME, ".ambank");
    (Str.contains COLLECTIONS_DIR_NAME, ".amcollection");
    (Str.contains EVENTS_DIR_NAME, ".amevent");
    (Str.contains PIPELINES_DIR_NAME, ".ampipeline");
    (Str.contains ATTENUATORS_DIR_NAME, ".amattenuation");
    (Str.contains SWITCHES_DIR_NAME, ".amswitch");
    (Str.contains SWITCH_CONTAINERS_DIR_NAME, ".amswitchcontainer");
    (Str.contains RTPC_DIR_NAME, ".amrtpc");
    (Str.contains SOUNDS_DIR_NAME, ".amsound");
    (Str.contains ENVIRONMENTS_DIR_NAME, ".amenv") ].

(** The rules in the order of the design document (section 4.3), where the
    sounds rule comes fifth. *)
Definition documented_rules : list rule :=
  [ (fun p => Str.endswith p "config.json", ".amconfig");
    (fun p => Str.endswith p "buses.json", ".ambus");
    (Str.contains SOUNDBANKS_DIR_NAME, ".ambank");
    (Str.contains COLLECTIONS_DIR_NAME, ".amcollection");
    (Str.contains SOUNDS_DIR_NAME, ".amsound");
    (Str.contains EVENTS_DIR_NAME, ".amevent");
    (Str.contains PIPELINES_DIR_NAME, ".ampipeline");
    (Str.contains ATTENUATORS_DIR_NAME, ".amattenuation");
    (Str.contains SWITCHES_DIR_NAME, ".amswitch");
    (Str.contains SWITCH_CONTAINERS_DIR_NAME, ".amswitchcontainer");
    (Str.contains RTPC_DIR_NAME, ".amrtpc");
    (Str.contains ENVIRONMENTS_DIR_NAME, ".amenv") ].

(** The glob pattern a category of the design document would be listed
    with: [project_path/<directory>/**/*.json]. *)
Definition category_pattern (project_path dir_name : string) : string :=
  Path.join project_path [dir_name; "**/*.json"].

Section Plan.
Context `{Host}.

(** The conversion units of a run, flattened: schema, source file and
    target of every file of every entry, in enumeration order. *)
Definition conversion_plan (w : world) (options : CommandOptions)
    : list (string * string * string) :=
  flat_map
    (fun element =>
       map (fun json =>
              (schema element, json,
               processed_json_path json (project_path options) (build_path options)))
           (input_files element))
    (get_conversion_data w (project_path options) [schema_path options]).

(** The command line [generate_flatbuffers_binaries] uses for a unit. *)
Definition flatc_command (options : CommandOptions) (schema json : string) : list string :=
  [ flatc_path options; "-o";
    Path.dirname (processed_json_path json (project_path options) (build_path options));
    "-I"; schema_path options; "-b"; schema; json ].

End Plan.

(** Whether a process of the log failed, and the error it is reported
    with. *)
Definition failed (e : spawn) : Prop :=
  match outcome e with
  | LaunchError _ => True
  | Exited rc _ => rc <> 0
  end.

Definition reported (e : spawn) : exn :=
  match outcome e with
  | LaunchError msg => BuildError (argv e) 1 msg
  | Exited rc _ => BuildError (argv e) rc ""
  end.

Definition left_by (e : spawn) : world :=
  match outcome e with
  | LaunchError _ => before e
  | Exited _ w' => w'
  end.

Section Invariants.
Context `{Host}.

(** Every process of the log is recorded with what [popen] answered. *)
Definition faithful (e : spawn) : Prop := outcome e = popen (argv e) (before e).

(** What a run may leave behind: a log without failure, or a log whose
    last process failed and is the error raised, on the file system that
    process left. *)
Definition fail_fast (r : result unit) (s' : state) : Prop :=
  Forall faithful (spawned s')
  /\ match r with
     | Ok _ => Forall (fun e => ~ failed e) (spawned s')
     | Raise x =>
         (Forall (fun e => ~ failed e) (spawned s') /\ exists f, x = OSError f)
         \/ exists pre e,
              spawned s' = (pre ++ [e])%list
              /\ Forall (fun e => ~ failed e) pre
              /\ failed e /\ x = reported e /\ os s' = left_by e
     end.

(** The target of a unit, as the loops compute it. *)
Definition unit_target (options : CommandOptions) (u : string * string * string)
    : string :=
  processed_json_path (snd (fst u)) (project_path options) (build_path options).

(** A unit is up to date on [w]: its target is a regular file in an
    existing directory, no older than its data file and its schema. *)
Definition up_to_date (options : CommandOptions) (w : world)
    (u : string * string * string) : Prop :=
  path_exists w (Path.dirname (unit_target options u)) = true
  /\ exists mt nj ns,
       files w !! unit_target options u = Some (File mt)
       /\ files w !! snd (fst u) = Some nj
       /\ files w !! fst (fst u) = Some ns
       /\ node_mtime nj <= mt
       /\ node_mtime ns <= mt.

(** The inputs of the units are those of [w0], untouched. *)
Definition inputs_kept (w0 w : world) (l : list (string * string * string)) : Prop :=
  forall u, In u l ->
    files w !! snd (fst u) = files w0 !! snd (fst u)
    /\ files w !! fst (fst u) = files w0 !! fst (fst u).

End Invariants.

(** ** The file name of a target *)

(** [os.path.basename(p)], i.e. [p[p.rfind('/') + 1:]]. *)
Fixpoint os_path_basename (p : string) : string :=
  match p with
  | EmptyString => EmptyString
  | String c p' =>
      if Str.contains "/" p' then os_path_basename p'
      else if Ascii.eqb c "/" then p' else p
  end.

(** [processed_json_filename(path, input_path, output_path)] *)
Definition processed_json_filename (path input_path output_path : string) : string :=
  os_path_basename (processed_json_path path input_path output_path).

(** ** The command line ([CommandOptions.__init__], [print_help]) *)

Module Cli.

Definition TAB : string := String "009"%char EmptyString.
Definition NL : string := String "010"%char EmptyString.

(** The attributes of a [CommandOptions] object as the constructor leaves
    them: the two paths are [None] unless an option sets them. *)
Record CommandLine : Type := {
  cl_project_path : option string;
  cl_build_path : option string;
  cl_flatc_path : string;
  cl_schema_path : string
}.

(** The class attributes, from the module constants [FLATC] and
    [SDK_PATH]. *)
Definition class_defaults (FLATC SDK_PATH : string) : CommandLine :=
  {| cl_project_path := None;
     cl_build_path := None;
     cl_flatc_path := FLATC;
     cl_schema_path := Path.join SDK_PATH ["schemas"] |}.

(** How the constructor ends: [sys.exit(code)] or the object. *)
Inductive startup : Type :=
| SystemExit (code : Z)
| Constructed (o : CommandLine).

(** [print_help(no_logo, script_name)]: the texts handed to [print], in
    order. *)
Definition print_help (no_logo : bool) (script_name : string) : list string :=
  ((if no_logo then []
    else [ "Amplitude Audio SDK - Copyright (c) 2021-present Sparky Studios. All Rights Reserved.";
           ("========================" ++ NL)%string ])
   ++ [ "Usage:";
        ("  " ++ script_name ++ ".py [options]" ++ NL)%string;
        "Options:";
        ("  -h, --help" ++ TAB ++ TAB ++ TAB ++ "Shows this help message.")%string;
        ("  -v, --version" ++ TAB ++ TAB ++ TAB ++ "Shows the script version.")%string;
        ("  --no-logo" ++ TAB ++ TAB ++ TAB ++ TAB
           ++ "Disables the display of copyright header.")%string;
        ("  -p, --project-path" ++ TAB
           ++ "Path to the directory containing the Amplitude project.")%string;
        ("  -b, --build-path" ++ TAB ++ TAB
           ++ "Path to the directory where the flatbuffers binaries will be generated.")%string;
        ("  --flatc" ++ TAB ++ TAB ++ TAB ++ TAB
           ++ "Path to a custom flatc binary.")%string ])%list.

(** The locals of the option loop and the attributes set so far. *)
Record scan : Type := {
  no_logo : bool;
  show_help : bool;
  show_version : bool;
  line : CommandLine
}.

(** One turn of [for opt, arg in opts]. *)
Definition scan_option (acc : scan) (oa : string * string) : scan :=
  let opt := fst oa in
  let arg := snd oa in
  if String.eqb opt "--no-logo" then
    {| no_logo := true; show_help := show_help acc;
       show_version := show_version acc; line := line acc |}
  else if String.eqb opt "-h" || String.eqb opt "--help" then
    {| no_logo := no_logo acc; show_help := true;
       show_version := show_version acc; line := line acc |}
  else if String.eqb opt "-v" || String.eqb opt "--version" then
    {| no_logo := no_logo acc; show_help := show_help acc;
       show_version := true; line := line acc |}
  else if String.eqb opt "-p" || String.eqb opt "--project-path" then
    {| no_logo := no_logo acc; show_help := show_help acc;
       show_version := show_version acc;
       line := {| cl_project_path := Some arg;
                  cl_build_path := cl_build_path (line acc);
                  cl_flatc_path := cl_flatc_path (line acc);
                  cl_schema_path := cl_schema_path (line acc) |} |}
  else if String.eqb opt "-b" || String.eqb opt "--build-path" then
    {| no_logo := no_logo acc; show_help := show_help acc;
       show_version := show_version acc;
       line := {| cl_project_path := cl_project_path (line acc);
                  cl_build_path := Some arg;
                  cl_flatc_path := cl_flatc_path (line acc);
                  cl_schema_path := cl_schema_path (line acc) |} |}
  else if String.eqb opt "-f" || String.eqb opt "--flatc" then
    {| no_logo := no_logo acc; show_help := show_help acc;
       show_version := show_version acc;
       line := {| cl_project_path := cl_project_path (line acc);
                  cl_build_path := cl_build_path (line acc);
                  cl_flatc_path := arg;
                  cl_schema_path := cl_schema_path (line acc) |} |}
  else if String.eqb opt "-s" || String.eqb opt "--schema-path" then
    {| no_logo := no_logo acc; show_help := show_help acc;
       show_version := show_version acc;
       line := {| cl_project_path := cl_project_path (line acc);
                  cl_build_path := cl_build_path (line acc);
                  cl_flatc_path := cl_flatc_path (line acc);
                  cl_schema_path := arg |} |}
  else acc.

(** [str.lower()] on the ASCII letters; the script only compares the
    result with the ASCII suffix [".exe"]. *)
Definition lower_char (c : ascii) : ascii :=
  let n := nat_of_ascii c in
  if (65 <=? n)%nat && (n <=? 90)%nat then ascii_of_nat (n + 32) else c.

Fixpoint lower (s : string) : string :=
  match s with
  | EmptyString => EmptyString
  | String c s' => String (lower_char c) (lower s')
  end.

(** The adjustment of [flatc_path] when [sys.platform] starts with
    ['win']. *)
Definition windows_flatc (flatc : string) : string :=
  let f := Str.replace flatc "/" "\" in
  if negb (Str.endswith (lower f) ".exe") then (f ++ ".exe")%string else f.

(** [CommandOptions.__init__] from the option pairs that [getopt.getopt]
    returned: what is printed, and how the constructor ends. *)
Definition CommandOptions_init (FLATC SDK_PATH platform : string)
    (opts : list (string * string)) (script_name script_version : string)
    : list string * startup :=
  let acc := fold_left scan_option opts
               {| no_logo := false; show_help := false; show_version := false;
                  line := class_defaults FLATC SDK_PATH |} in
  if show_help acc then (print_help (no_logo acc) script_name, SystemExit 0)
  else if show_version acc then
    ([(script_name ++ ".py " ++ script_version)%string], SystemExit 0)
  else if match cl_project_path (line acc) with
          | Some p => String.eqb p ""
          | None => false
          end
          || match cl_build_path (line acc) with
             | Some b => String.eqb b ""
             | None => false
             end
  then (print_help (no_logo acc) script_name, SystemExit 1)
  else
    ([],
     Constructed
       (if Str.startswith platform "win"
        then {| cl_project_path := cl_project_path (line acc);
                cl_build_path := cl_build_path (line acc);
                cl_flatc_path := windows_flatc (cl_flatc_path (line acc));
                cl_schema_path := cl_schema_path (line acc) |}
        else line acc)).

(** The tests of the option loop, and the last argument given for an
    option. *)
Definition is_no_logo (opt : string) : bool := String.eqb opt "--no-logo".
Definition is_help (opt : string) : bool := String.eqb opt "-h" || String.eqb opt "--help".
Definition is_version (opt : string) : bool :=
  String.eqb opt "-v" || String.eqb opt "--version".
Definition is_project (opt : string) : bool :=
  String.eqb opt "-p" || String.eqb opt "--project-path".
Definition is_build (opt : string) : bool :=
  String.eqb opt "-b" || String.eqb opt "--build-path".
Definition is_flatc (opt : string) : bool := String.eqb opt "-f" || String.eqb opt "--flatc".
Definition is_schema (opt : string) : bool :=
  String.eqb opt "-s" || String.eqb opt "--schema-path".

Definition given (test : string -> bool) (opts : list (string * string)) : bool :=
  existsb (fun oa => test (fst oa)) opts.

Definition last_arg {A} (test : string -> bool) (inject : string -> A)
    (opts : list (string * string)) (default : A) : A :=
  fold_left (fun d oa => if test (fst oa) then inject (snd oa) else d) opts default.

End Cli.

(** ** A small concrete host, used to run the definitions *)

Module Sample.

(** [p[p.rfind('/') + 1:]], i.e. [os.path.basename(p)]. *)
Fixpoint basename (p : string) : string :=
  match p with
  | EmptyString => EmptyString
  | String c p' =>
      if Str.contains "/" p' then basename p'
      else if Ascii.eqb c "/" then p' else p
  end.

(** The part of a pattern in front of its first star and the part behind
    it. *)
Fixpoint split_star (pat : string) : option (string * string) :=
  match pat with
  | EmptyString => None
  | String c rest =>
      if Ascii.eqb c "*" then Some (EmptyString, rest)
      else match split_star rest with
           | Some (pre, post) => Some (String c pre, post)
           | None => None
           end
  end.

Fixpoint drop (n : nat) (s : string) : string :=
  match n, s with
  | S k, String _ s' => drop k s'
  | _, _ => s
  end.

(** Enough of [fnmatch] for the two pattern shapes of the script:
    [dir/*suffix] (one level) and [dir/**/*suffix] (any depth). *)
Definition glob_match (pat p : string) : bool :=
  match split_star pat with
  | None => String.eqb pat p
  | Some (pre, post) =>
      Str.startswith p pre &&
      if Str.startswith post "*/*"
      then Str.endswith (drop (String.length pre) p) (drop 3 post)
      else Str.endswith (drop (String.length pre) p) post &&
           negb (Str.contains "/" (drop (String.length pre) p))
  end.

(** A directory listing standing for [glob.glob]. *)
Definition listing (w : world) (pat : string) (recursive : bool) : list string :=
  filter (fun p => glob_match pat p = true) (map fst (map_to_list (files w))).

(** The latest time stamp of the file system, at least the clock. *)
Definition latest (w : world) : Z :=
  map_fold (fun _ n acc => Z.max (node_mtime n) acc) (now w) (files w).

(** A compiler in the manner of [flatc -o out_dir -I inc -b schema json]:
    it needs both input files, names the artifact after the data file and
    stamps it with the current time. *)
Definition artifact (out_dir json : string) : string :=
  Path.join out_dir [Str.replace (basename json) ".json" (processed_extension json)].

Definition compiler (command : list string) (w : world) : launch :=
  match command with
  | [exe; "-o"; out_dir; "-I"; _; "-b"; bfbs; json] =>
      if negb (String.eqb exe "flatc") then LaunchError "No such file or directory"
      else if isfile w bfbs && isfile w json
      then Exited 0 {| files := <[artifact out_dir json := File (latest w)]> (files w);
                       now := latest w + 1 |}
      else Exited 2 w
  | _ => LaunchError "No such file or directory"
  end.

#[export] Instance host : Host := {| popen := compiler; glob := listing |}.

Definition options : CommandOptions :=
  {| project_path := "proj"; build_path := "out";
     flatc_path := "flatc"; schema_path := "schemas" |}.

(** A project with one sound, its schema in place, nothing built yet. *)
Definition fresh_project : world :=
  {| files := list_to_map
       [ ("proj", Dir 1); ("proj/sounds", Dir 1); ("proj/sounds/a.json", File 10);
         ("schemas", Dir 1); ("schemas/sound_definition.bfbs", File 5) ];
     now := 20 |}.

(** The same project once built. *)
Definition built_project : world :=
  {| files := list_to_map
       [ ("proj", Dir 1); ("proj/sounds", Dir 1); ("proj/sounds/a.json", File 10);
         ("schemas", Dir 1); ("schemas/sound_definition.bfbs", File 5);
         ("out", Dir 20); ("out/sounds", Dir 20); ("out/sounds/a.amsound", File 20) ];
     now := 21 |}.

(** The same project with the schema missing. *)
Definition no_schema_project : world :=
  {| files := list_to_map
       [ ("proj", Dir 1); ("proj/sounds", Dir 1); ("proj/sounds/a.json", File 10) ];
     now := 20 |}.

(** A project that only has an environment definition. *)
Definition environment_project : world :=
  {| files := list_to_map
       [ ("proj", Dir 1); ("proj/environments", Dir 1);
         ("proj/environments/room.json", File 10);
         ("schemas", Dir 1); ("schemas/environment_definition.bfbs", File 5) ];
     now := 20 |}.

Definition start (w : world) : state := {| os := w; spawned := [] |}.

End Sample.

(** ** A project given as the current directory *)

Module DotProject.

Definition options : CommandOptions :=
  {| project_path := "."; build_path := "build";
     flatc_path := "flatc"; schema_path := "schemas" |}.

(** One effect definition under [./effects], as [glob] reports it for the
    project path [.], its schema in place, nothing built yet. *)
Definition project : world :=
  {| files := list_to_map
       [ (".", Dir 1); ("./effects", Dir 1); ("./effects/reverb.json", File 10);
         ("schemas", Dir 1); ("schemas/effect_definition.bfbs", File 5) ];
     now := 20 |}.

End DotProject.

(** * Properties *)

(** ** Strings *)

Section StringFacts.

Lemma append_nil_l (r : string) : ("" ++ r)%string = r.
Proof. reflexivity. Qed.

Lemma append_cons (a : ascii) (p r : string) :
  (String a p ++ r)%string = String a (p ++ r).
Proof. reflexivity. Qed.

Lemma append_assoc (a b c : string) : ((a ++ b) ++ c = a ++ (b ++ c))%string.
Proof.
  induction a as [|x a IH]; [reflexivity|].
  rewrite !append_cons, IH. reflexivity.
Qed.

Lemma append_empty_r (a : string) : (a ++ "")%string = a.
Proof.
  induction a as [|x a IH]; [reflexivity|].
  rewrite append_cons, IH. reflexivity.
Qed.

Lemma startswith_app (p r : string) : Str.startswith (p ++ r) p = true.
Proof.
  induction p as [|a p IH]; [reflexivity|].
  rewrite append_cons. simpl. rewrite Ascii.eqb_refl. exact IH.
Qed.

Lemma startswith_inv (s p : string) :
  Str.startswith s p = true -> exists r, s = (p ++ r)%string.
Proof.
  revert s. induction p as [|a p IH]; intros s Hs.
  - exists s. reflexivity.
  - destruct s as [|b s]; [discriminate|]. simpl in Hs.
    apply andb_true_iff in Hs as [Hab Hs].
    apply Ascii.eqb_eq in Hab. subst b.
    destruct (IH _ Hs) as [r ->]. exists r. reflexivity.
Qed.

Lemma endswith_refl (s : string) : Str.endswith s s = true.
Proof. destruct s; cbn [Str.endswith]; rewrite String.eqb_refl; reflexivity. Qed.

Lemma endswith_app (t suf : string) : Str.endswith (t ++ suf) suf = true.
Proof.
  induction t as [|c t IH].
  - rewrite append_nil_l. apply endswith_refl.
  - rewrite append_cons. simpl. rewrite IH. apply orb_true_r.
Qed.

Lemma endswith_inv (s suf : string) :
  Str.endswith s suf = true -> exists t, s = (t ++ suf)%string.
Proof.
  induction s as [|c s IH]; cbn [Str.endswith]; intros Hs.
  - apply orb_true_iff in Hs as [Hs|Hs]; [|discriminate].
    apply String.eqb_eq in Hs. subst suf. exists EmptyString. reflexivity.
  - apply orb_true_iff in Hs as [Hs|Hs].
    + apply String.eqb_eq in Hs. subst suf. exists EmptyString. reflexivity.
    + destruct (IH Hs) as [t ->]. exists (String c t). reflexivity.
Qed.

Lemma contains_startswith (sub s : string) :
  Str.startswith s sub = true -> Str.contains sub s = true.
Proof. intros Hs. destruct s; simpl; rewrite Hs; reflexivity. Qed.

Lemma contains_app (a sub b : string) : Str.contains sub (a ++ sub ++ b) = true.
Proof.
  induction a as [|c a IH].
  - rewrite append_nil_l. apply contains_startswith, startswith_app.
  - rewrite append_cons. simpl. rewrite IH. apply orb_true_r.
Qed.

(** An occurrence of [".json"] that starts inside [t ++ ".json"] before the
    final one ends inside [t]: the scan never skips into the last
    occurrence. *)
Lemma replace_scan_json_suffix (e t : string) (skip : nat) :
  (skip <= String.length t)%nat ->
  exists r, Str.replace_scan skip (t ++ ".json") ".json" e = (r ++ e)%string.
Proof.
  revert skip. induction t as [|c t IH]; intros skip Hskip.
  - assert (skip = 0%nat) as -> by (simpl in Hskip; lia).
    exists EmptyString. rewrite !append_nil_l. simpl. apply append_empty_r.
  - rewrite append_cons. destruct skip as [|k].
    + cbn [Str.replace_scan].
      destruct (Str.startswith (String c (t ++ ".json")) ".json") eqn:Hp.
      * assert (4 <= String.length t)%nat as H4.
        { destruct t as [|c1 [|c2 [|c3 [|c4 t]]]];
            rewrite ?append_cons, ?append_nil_l in Hp; simpl in Hp;
            repeat match type of Hp with
                   | (?a && ?b)%bool = true =>
                       let H1 := fresh in
                       apply andb_true_iff in Hp as [H1 Hp];
                       try (apply Ascii.eqb_eq in H1; subst)
                   end; try discriminate; simpl; lia. }
        destruct (IH 4%nat H4) as [r Hr].
        exists (e ++ r)%string. simpl Nat.pred. rewrite Hr.
        symmetry. apply append_assoc.
      * destruct (IH 0%nat ltac:(lia)) as [r Hr].
        exists (String c r). rewrite Hr. reflexivity.
    + cbn [Str.replace_scan].
      apply IH. simpl in Hskip. lia.
Qed.

(** Replacing [".json"] in a path that ends with it leaves a path that
    ends with the replacement. *)
Lemma replace_json_endswith (path e : string) :
  Str.endswith path ".json" = true ->
  Str.endswith (Str.replace path ".json" e) e = true.
Proof.
  intros Hp. destruct (endswith_inv _ _ Hp) as [t ->].
  destruct (replace_scan_json_suffix e t 0 ltac:(lia)) as [r Hr].
  unfold Str.replace. rewrite Hr. apply endswith_app.
Qed.

Lemma endswith_trans (s mid suf : string) :
  Str.endswith s mid = true -> Str.endswith mid suf = true ->
  Str.endswith s suf = true.
Proof.
  intros H1 H2.
  destruct (endswith_inv _ _ H1) as [a ->].
  destruct (endswith_inv _ _ H2) as [b ->].
  rewrite <- append_assoc. apply endswith_app.
Qed.

End StringFacts.

(** ** The path mapper *)

Section PathMapper.

(** The nested conditional of [processed_json_path] is [first_match] over
    [naming_rules]. *)
Lemma processed_extension_first_match (path : string) :
  processed_extension path = first_match naming_rules path.
Proof. reflexivity. Qed.

Lemma first_match_earliest (rules pre post : list rule) (test : string -> bool)
    (ext path : string) :
  rules = (pre ++ (test, ext) :: post)%list ->
  Forall (fun r => fst r path = false) pre ->
  test path = true ->
  first_match rules path = ext.
Proof.
  intros -> Hpre Htest.
  induction Hpre as [|[t e] pre Ht _ IH]; simpl.
  - rewrite Htest. reflexivity.
  - simpl in Ht. rewrite Ht. exact IH.
Qed.

(** The extension stage alone: a [config.json] file gets [.amconfig]. *)
Lemma extension_stage_config (path : string) :
  Str.endswith path "config.json" = true ->
  Str.endswith (Str.replace path ".json" (processed_extension path)) ".amconfig" = true.
Proof.
  intros Hp.
  assert (processed_extension path = ".amconfig") as ->.
  { unfold processed_extension. rewrite Hp. reflexivity. }
  apply replace_json_endswith.
  apply endswith_trans with (mid := "config.json"); [exact Hp | reflexivity].
Qed.

(** The extension stage alone: a [.json] file that no rule accepts gets
    [.ambin]. *)
Lemma extension_stage_fallback (path : string) :
  Str.endswith path ".json" = true ->
  Forall (fun r : rule => fst r path = false) naming_rules ->
  Str.endswith (Str.replace path ".json" (processed_extension path)) ".ambin" = true.
Proof.
  intros Hp Hnone.
  assert (processed_extension path = ".ambin") as ->.
  { rewrite processed_extension_first_match.
    induction Hnone as [|[t e] l Ht _ IH]; simpl; [reflexivity|].
    simpl in Ht. rewrite Ht. exact IH. }
  apply replace_json_endswith. exact Hp.
Qed.

(** C1 (as amended): the rules are tested in the order config.json,
    buses.json, soundbanks, collections, events, pipelines, attenuators,
    switches, switch_containers, rtpc, sounds, environments, else [.ambin];
    the extension put in place of [".json"] is the one of the earliest rule
    of that list which accepts the path, so a path that contains both
    [sounds] and [events] and is accepted by none of the four rules in front
    of them gets [.amevent]. *)
Theorem naming_rules_priority (path input_path output_path : string) :
  processed_json_path path input_path output_path
  = Str.replace (Str.replace path ".json" (first_match naming_rules path))
      input_path output_path
  /\ (forall pre test ext post,
        naming_rules = (pre ++ (test, ext) :: post)%list ->
        Forall (fun r => fst r path = false) pre ->
        test path = true ->
        processed_extension path = ext)
  /\ (Str.endswith path "config.json" = false ->
      Str.endswith path "buses.json" = false ->
      Str.contains SOUNDBANKS_DIR_NAME path = false ->
      Str.contains COLLECTIONS_DIR_NAME path = false ->
      Str.contains SOUNDS_DIR_NAME path = true ->
      Str.contains EVENTS_DIR_NAME path = true ->
      processed_extension path = ".amevent").
Proof.
  split; [reflexivity|]. split.
  - intros pre test ext post Hrules Hpre Htest.
    rewrite processed_extension_first_match.
    eapply first_match_earliest; eassumption.
  - intros H1 H2 H3 H4 _ H6. unfold processed_extension.
    rewrite H1, H2, H3, H4, H6. reflexivity.
Qed.

Lemma naming_rules_priority_witness :
  processed_extension "proj/sounds/events/a.json" = ".amevent"
  /\ processed_json_path "proj/sounds/events/a.json" "proj" "out"
     = "out/sounds/events/a.amevent".
Proof.
  split.
  - apply (naming_rules_priority "proj/sounds/events/a.json" "proj" "out");
      reflexivity.
  - reflexivity.
Defined.

(** C1 (as stated) fails: with the sounds rule fifth, a file under
    [sounds/events] would get [.amsound]; the script maps it to
    [.amevent]. *)
Lemma sounds_before_events_counterexample :
  Str.contains SOUNDS_DIR_NAME "proj/sounds/events/a.json" = true
  /\ Str.contains EVENTS_DIR_NAME "proj/sounds/events/a.json" = true
  /\ first_match documented_rules "proj/sounds/events/a.json" = ".amsound"
  /\ processed_json_path "proj/sounds/events/a.json" "proj" "out"
     = "out/sounds/events/a.amevent"
  /\ Str.endswith (processed_json_path "proj/sounds/events/a.json" "proj" "out")
       ".amsound" = false.
Proof. repeat split; reflexivity. Qed.

(** C3: every file whose name ends in [config.json] should map to a path
    ending in [.amconfig]; for a project given as [.] the rewrite of the
    project prefix replaces every dot of the path, the one of the extension
    included, and the result does not end in [.amconfig]. *)
Theorem config_extension_lost_for_dot_project :
  Str.endswith "./pc.config.json" "config.json" = true
  /\ processed_json_path "./pc.config.json" "." "build"
     = "build/pcbuildconfigbuildamconfig"
  /\ Str.endswith (processed_json_path "./pc.config.json" "." "build")
       ".amconfig" = false.
Proof. repeat split; reflexivity. Qed.

(** C9: a file that no naming rule accepts, such as one listed under
    [effects], should map to a path ending in [.ambin]; for a project given
    as [.] the rewrite of the project prefix also replaces the dot of the
    extension, and the result does not end in [.ambin]. *)
Theorem fallback_extension_lost_for_dot_project :
  Forall (fun r : rule => fst r "./effects/reverb.json" = false) naming_rules
  /\ processed_extension "./effects/reverb.json" = ".ambin"
  /\ processed_json_path "./effects/reverb.json" "." "build"
     = "build/effects/reverbbuildambin"
  /\ Str.endswith (processed_json_path "./effects/reverb.json" "." "build")
       ".ambin" = false.
Proof.
  split; [|repeat split; reflexivity].
  repeat constructor.
Qed.

End PathMapper.

(** ** The file system *)

Section FileSystem.

Lemma isfile_lookup (w : world) (p : string) :
  isfile w p = true <-> exists m, files w !! p = Some (File m).
Proof.
  unfold isfile. destruct (files w !! p) as [[m|m]|]; split;
    try discriminate; eauto; intros [m' Hm]; discriminate.
Qed.

Lemma isfile_getmtime (w : world) (p : string) :
  isfile w p = true -> exists m, getmtime w p = Some m.
Proof.
  intros [m Hm]%isfile_lookup. exists m. unfold getmtime. rewrite Hm. reflexivity.
Qed.

Lemma mkdir_chain_keeps (t : Z) (l : list string) (m : gmap string node)
    (p : string) (n : node) :
  m !! p = Some n -> fold_right (mkdir_missing t) m l !! p = Some n.
Proof.
  intros Hp. induction l as [|q l IH]; simpl; [exact Hp|].
  unfold mkdir_missing at 1.
  destruct (fold_right (mkdir_missing t) m l !! q) eqn:Hq; [exact IH|].
  rewrite lookup_insert_ne; [exact IH|]. intros ->. congruence.
Qed.

Lemma mkdir_chain_new (t : Z) (l : list string) (m : gmap string node)
    (p : string) (n : node) :
  fold_right (mkdir_missing t) m l !! p = Some n ->
  m !! p = Some n \/ (m !! p = None /\ n = Dir t).
Proof.
  revert n. induction l as [|q l IH]; simpl; intros n Hn; [left; exact Hn|].
  unfold mkdir_missing at 1 in Hn.
  destruct (fold_right (mkdir_missing t) m l !! q) eqn:Hq; [apply IH, Hn|].
  destruct (decide (q = p)) as [->|Hne].
  - rewrite lookup_insert_eq in Hn. injection Hn as <-.
    destruct (m !! p) as [n'|] eqn:Hm; [|right; split; reflexivity].
    rewrite (mkdir_chain_keeps t l m p n' Hm) in Hq. discriminate.
  - rewrite lookup_insert_ne in Hn by exact Hne. apply IH, Hn.
Qed.

Lemma mkdir_chain_creates (t : Z) (l : list string) (m : gmap string node)
    (p : string) :
  In p l -> is_Some (fold_right (mkdir_missing t) m l !! p).
Proof.
  induction l as [|q l IH]; cbn [In fold_right]; [intros []|].
  intros Hin. unfold mkdir_missing at 1.
  destruct (fold_right (mkdir_missing t) m l !! q) eqn:Hq.
  - destruct Hin as [->|Hin]; [rewrite Hq; eauto|apply IH, Hin].
  - destruct (decide (q = p)) as [->|Hne].
    + rewrite lookup_insert_eq. eauto.
    + rewrite lookup_insert_ne by exact Hne.
      destruct Hin as [->|Hin]; [congruence|apply IH, Hin].
Qed.

Lemma makedirs_inv (d : string) (w w1 : world) :
  makedirs d w = Some w1 ->
  w1 = {| files := fold_right (mkdir_missing (now w)) (files w) (Path.dir_chain "" d);
          now := now w |}
  /\ In d (Path.dir_chain "" d).
Proof.
  unfold makedirs. intros Hmk.
  destruct (String.eqb d ""); [discriminate|].
  destruct (path_exists w d); [discriminate|].
  destruct (existsb (String.eqb d) _) eqn:Hin; [|discriminate]. cbn [negb] in Hmk.
  destruct (existsb (isfile w) _); [discriminate|].
  injection Hmk as <-. split; [reflexivity|].
  apply existsb_exists in Hin as (q & Hq & Heq).
  apply String.eqb_eq in Heq. subst q. exact Hq.
Qed.

Lemma makedirs_keeps (d : string) (w w1 : world) (p : string) (n : node) :
  makedirs d w = Some w1 -> files w !! p = Some n -> files w1 !! p = Some n.
Proof.
  intros [-> _]%makedirs_inv Hp. cbn [files]. apply mkdir_chain_keeps, Hp.
Qed.

Lemma makedirs_creates (d : string) (w w1 : world) :
  makedirs d w = Some w1 -> path_exists w1 d = true.
Proof.
  intros [-> Hin]%makedirs_inv. unfold path_exists. cbn [files].
  destruct (mkdir_chain_creates (now w) _ (files w) d Hin) as [n ->]. reflexivity.
Qed.

Lemma makedirs_isfile (d : string) (w w1 : world) (p : string) :
  makedirs d w = Some w1 -> isfile w1 p = isfile w p.
Proof.
  intros [-> _]%makedirs_inv. unfold isfile. cbn [files].
  destruct (fold_right _ _ _ !! p) as [n|] eqn:Hn.
  - apply mkdir_chain_new in Hn as [Hn|[Hn ->]]; rewrite Hn; reflexivity.
  - destruct (files w !! p) as [n|] eqn:Hm; [|reflexivity].
    rewrite (mkdir_chain_keeps _ _ _ _ _ Hm) in Hn. discriminate.
Qed.

Lemma makedirs_getmtime (d : string) (w w1 : world) (p : string) (m : Z) :
  makedirs d w = Some w1 -> getmtime w p = Some m -> getmtime w1 p = Some m.
Proof.
  unfold getmtime. intros Hmk Hp.
  destruct (files w !! p) as [n|] eqn:Hn; [|discriminate].
  rewrite (makedirs_keeps _ _ _ _ _ Hmk Hn). exact Hp.
Qed.

(** Creating directories does not change the verdict on a source that
    exists. *)
Lemma makedirs_needs_rebuild (d : string) (w w1 : world) (source target : string)
    (ms : Z) :
  makedirs d w = Some w1 -> getmtime w source = Some ms ->
  needs_rebuild w1 source target = needs_rebuild w source target.
Proof.
  intros Hmk Hs. unfold needs_rebuild.
  rewrite (makedirs_isfile _ _ _ target Hmk).
  destruct (isfile w target) eqn:Ht; [|reflexivity]. simpl.
  rewrite Hs, (makedirs_getmtime _ _ _ _ _ Hmk Hs).
  destruct (isfile_getmtime _ _ Ht) as [mt Hmt].
  rewrite Hmt, (makedirs_getmtime _ _ _ _ _ Hmk Hmt). reflexivity.
Qed.

Lemma needs_rebuild_total (w : world) (source target : string) (ms : Z) :
  getmtime w source = Some ms ->
  needs_rebuild w source target
  = Ok (negb (isfile w target)
        || match getmtime w target with Some mt => mt <? ms | None => false end).
Proof.
  intros Hs. unfold needs_rebuild.
  destruct (isfile w target) eqn:Ht; [|reflexivity]. simpl.
  rewrite Hs. destruct (isfile_getmtime _ _ Ht) as [mt ->]. reflexivity.
Qed.

End FileSystem.

(** ** Running the loops *)

Section Runs.
Context `{Host}.

Lemma state_eta (s : state) : {| os := os s; spawned := spawned s |} = s.
Proof. destruct s; reflexivity. Qed.

(** The loop body of [generate_flatbuffers_binaries], step by step. *)
Lemma build_file_run (options : CommandOptions) (schema json : string) (s : state) :
  build_file options schema json s =
  let target := processed_json_path json (project_path options) (build_path options) in
  let dir := Path.dirname target in
  match (if path_exists (os s) dir then Some (os s) else makedirs dir (os s)) with
  | None => (Raise (OSError dir), s)
  | Some w1 =>
      let s1 := {| os := w1; spawned := spawned s |} in
      match needs_rebuild w1 json target with
      | Raise e => (Raise e, s1)
      | Ok stale_json =>
          match (if stale_json : bool then Ok true
                 else needs_rebuild w1 schema target) with
          | Raise e => (Raise e, s1)
          | Ok true => run_subprocess (flatc_command options schema json) s1
          | Ok false => (Ok tt, s1)
          end
      end
  end.
Proof.
  unfold build_file, bind, observe, ret, convert_json_to_flatbuffers_binary,
    flatc_command.
  cbn zeta.
  destruct (path_exists (os s) _) eqn:Hd; cbn [negb].
  - rewrite state_eta.
    destruct (needs_rebuild (os s) json _) as [[|]|e]; [reflexivity| |reflexivity].
    destruct (needs_rebuild (os s) schema _) as [[|]|e]; reflexivity.
  - destruct (makedirs _ (os s)) as [w1|]; [|reflexivity]. cbn [os].
    destruct (needs_rebuild w1 json _) as [[|]|e]; [reflexivity| |reflexivity].
    cbn [os].
    destruct (needs_rebuild w1 schema _) as [[|]|e]; reflexivity.
Qed.

Lemma for_each_app {A} (l1 l2 : list A) (body : A -> M unit) (s : state) :
  for_each (l1 ++ l2)%list body s
  = match for_each l1 body s with
    | (Ok _, s1) => for_each l2 body s1
    | (Raise e, s1) => (Raise e, s1)
    end.
Proof.
  revert s. induction l1 as [|x l1 IH]; intros s; simpl; [reflexivity|].
  unfold bind. destruct (body x s) as [[[]|e] s1]; [apply IH|reflexivity].
Qed.

(** Both orchestrators walk the same plan. *)
Lemma generate_as_plan (options : CommandOptions) (s : state) :
  generate_flatbuffers_binaries options s
  = for_each (conversion_plan (os s) options)
      (fun u => build_file options (fst (fst u)) (snd (fst u))) s.
Proof.
  unfold generate_flatbuffers_binaries, conversion_plan, bind, observe.
  generalize (get_conversion_data (os s) (project_path options) [schema_path options]).
  intros data. revert s.
  induction data as [|el data IH]; intros s; [reflexivity|].
  cbn [for_each flat_map]. rewrite for_each_app. unfold bind at 1.
  assert (forall l s0,
            for_each l (fun json => build_file options (schema el) json) s0
            = for_each
                (map (fun json => (schema el, json,
                        processed_json_path json (project_path options)
                          (build_path options))) l)
                (fun u => build_file options (fst (fst u)) (snd (fst u))) s0) as Hin.
  { induction l as [|b l IHl]; intros s0; [reflexivity|].
    cbn [for_each map]. unfold bind. cbn [fst snd].
    destruct (build_file options (schema el) b s0) as [[[]|e] s1];
      [apply IHl|reflexivity]. }
  rewrite <- Hin.
  destruct (for_each (input_files el) _ s) as [[[]|e] s1]; [apply IH|reflexivity].
Qed.

Lemma clean_as_plan (options : CommandOptions) (s : state) :
  clean_flatbuffers_binaries options s
  = for_each (conversion_plan (os s) options)
      (fun u => clean_file options (snd (fst u))) s.
Proof.
  unfold clean_flatbuffers_binaries, conversion_plan, bind, observe.
  generalize (get_conversion_data (os s) (project_path options) [schema_path options]).
  intros data. revert s.
  induction data as [|el data IH]; intros s; [reflexivity|].
  cbn [for_each flat_map]. rewrite for_each_app. unfold bind at 1.
  assert (forall l s0,
            for_each l (fun json => clean_file options json) s0
            = for_each
                (map (fun json => (schema el, json,
                        processed_json_path json (project_path options)
                          (build_path options))) l)
                (fun u => clean_file options (snd (fst u))) s0) as Hin.
  { induction l as [|b l IHl]; intros s0; [reflexivity|].
    cbn [for_each map]. unfold bind. cbn [fst snd].
    destruct (clean_file options b s0) as [[[]|e] s1];
      [apply IHl|reflexivity]. }
  rewrite <- Hin.
  destruct (for_each (input_files el) _ s) as [[[]|e] s1]; [apply IH|reflexivity].
Qed.

End Runs.

(** ** Schema lookup and staleness *)

Section Staleness.

(** C7: [find_in_paths] returns [os.path.join(path, name)] for the first
    search path, in order, under which that is a regular file, and the bare
    name when there is none; it is a total function, so it raises nothing
    of its own. *)
Theorem find_in_paths_first_match (w : world) (name : string) (paths : list string) :
  (exists pre path post,
      paths = (pre ++ path :: post)%list
      /\ Forall (fun q => isfile w (Path.join q [name]) = false) pre
      /\ isfile w (Path.join path [name]) = true
      /\ find_in_paths w name paths = Path.join path [name])
  \/ (Forall (fun q => isfile w (Path.join q [name]) = false) paths
      /\ find_in_paths w name paths = name).
Proof.
  induction paths as [|q paths IH]; cbn [find_in_paths].
  - right. split; [constructor|reflexivity].
  - destruct (isfile w (Path.join q [name])) eqn:Hq.
    + left. exists [], q, paths. repeat split; [constructor|exact Hq].
    + destruct IH as [(pre & p & post & -> & Hpre & Hp & Hres)|[Hall Hres]].
      * left. exists (q :: pre), p, post.
        repeat split; [constructor; assumption|exact Hp|exact Hres].
      * right. split; [constructor; assumption|exact Hres].
Qed.

(** With a plain directory and a relative name the joined path is
    [path/name]. *)
Lemma join_plain (path name : string) :
  Str.startswith name "/" = false ->
  String.eqb path "" = false ->
  Str.endswith path "/" = false ->
  Path.join path [name] = (path ++ "/" ++ name)%string.
Proof.
  intros Hn Hp Hs. unfold Path.join. cbn [fold_left]. unfold Path.join2.
  rewrite Hn, Hp, Hs. reflexivity.
Qed.

(** C10: [needs_rebuild] returns a boolean whenever the source exists;
    when the target is a regular file and the source does not exist, the
    modification-time lookup on the source raises instead; a missing target
    is answered before the source is looked at; and the sources of the plan
    exist whenever the directory listing only reports existing paths. *)
Theorem needs_rebuild_requires_source :
  (forall w source target,
      is_Some (getmtime w source) ->
      exists b, needs_rebuild w source target = Ok b)
  /\ (forall w source target,
        isfile w target = true -> getmtime w source = None ->
        needs_rebuild w source target = Raise (OSError source))
  /\ (forall w source target,
        isfile w target = false -> needs_rebuild w source target = Ok true)
  /\ (forall (H : Host) w options,
        (forall pattern recursive p,
            In p (glob w pattern recursive) -> is_Some (getmtime w p)) ->
        forall schema json target,
          In (schema, json, target) (conversion_plan w options) ->
          exists b, needs_rebuild w json target = Ok b).
Proof.
  assert (forall w source target,
             is_Some (getmtime w source) ->
             exists b, needs_rebuild w source target = Ok b) as Htotal.
  { intros w source target [ms Hs].
    rewrite (needs_rebuild_total _ _ _ _ Hs). eauto. }
  split; [exact Htotal|]. split; [|split].
  - intros w source target Ht Hs. unfold needs_rebuild.
    rewrite Ht, Hs. reflexivity.
  - intros w source target Ht. unfold needs_rebuild. rewrite Ht. reflexivity.
  - intros H w options Hglob schema json target Hin.
    apply Htotal. unfold conversion_plan in Hin.
    apply in_flat_map in Hin as (el & Hel & Hin).
    apply in_map_iff in Hin as (j & Hj & Hin). injection Hj as _ -> _.
    unfold get_conversion_data, conversion_entry in Hel. cbn [In] in Hel.
    repeat (destruct Hel as [<-|Hel]; [cbn [input_files] in Hin; eapply Hglob, Hin|]).
    destruct Hel.
Qed.

End Staleness.

Section StalenessOfUnits.

Lemma run_subprocess_log `{Host} (command : list string) (s : state) :
  spawned (snd (run_subprocess command s))
  = (spawned s ++ [Spawn command (os s) (popen command (os s))])%list.
Proof.
  unfold run_subprocess. destruct (popen command (os s)); reflexivity.
Qed.

(** C4: given the source's modification time, [needs_rebuild] answers
    [True] exactly when the target is not a regular file or the source is
    strictly newer, and [False] on equal time stamps; one pass of the build
    loop starts the compiler exactly when this holds for the data file or
    for the schema. *)
Theorem rebuild_iff_stale :
  (forall w source target ms,
      getmtime w source = Some ms ->
      exists b, needs_rebuild w source target = Ok b
        /\ (b = true <->
            isfile w target = false
            \/ exists mt, getmtime w target = Some mt /\ mt < ms)
        /\ (isfile w target = true -> getmtime w target = Some ms -> b = false))
  /\ (forall (H : Host) options schema json s mj ms,
        getmtime (os s) json = Some mj ->
        getmtime (os s) schema = Some ms ->
        path_exists (os s)
          (Path.dirname
             (processed_json_path json (project_path options) (build_path options)))
          = true
        \/ is_Some
             (makedirs
                (Path.dirname
                   (processed_json_path json (project_path options)
                      (build_path options)))
                (os s)) ->
        exists bj bs,
          needs_rebuild (os s) json
            (processed_json_path json (project_path options) (build_path options))
          = Ok bj
          /\ needs_rebuild (os s) schema
               (processed_json_path json (project_path options) (build_path options))
             = Ok bs
          /\ map argv (spawned (snd (build_file options schema json s)))
             = (map argv (spawned s)
                ++ if bj || bs then [flatc_command options schema json] else [])%list).
Proof.
  split.
  - intros w source target ms Hs.
    rewrite (needs_rebuild_total _ _ _ _ Hs). eexists. split; [reflexivity|].
    split.
    + rewrite orb_true_iff, negb_true_iff. split.
      * intros [Ht|Hlt]; [left; exact Ht|].
        destruct (getmtime w target) as [mt|]; [|discriminate].
        right. exists mt. split; [reflexivity|]. apply Z.ltb_lt, Hlt.
      * intros [Ht|(mt & Hmt & Hlt)]; [left; exact Ht|].
        right. rewrite Hmt. apply Z.ltb_lt, Hlt.
    + intros Ht Hmt. rewrite Ht, Hmt, Z.ltb_irrefl. reflexivity.
  - intros H options schema json s mj ms Hj Hs Hdir.
    set (target := processed_json_path json (project_path options) (build_path options)) in *.
    rewrite (needs_rebuild_total _ _ target _ Hj), (needs_rebuild_total _ _ target _ Hs).
    do 2 eexists. split; [reflexivity|]. split; [reflexivity|].
    rewrite build_file_run. cbn zeta. fold target.
    assert (exists w1,
               (if path_exists (os s) (Path.dirname target)
                then Some (os s) else makedirs (Path.dirname target) (os s)) = Some w1
               /\ needs_rebuild w1 json target = needs_rebuild (os s) json target
               /\ needs_rebuild w1 schema target = needs_rebuild (os s) schema target)
      as (w1 & -> & -> & ->).
    { destruct (path_exists (os s) (Path.dirname target)) eqn:Hd.
      - exists (os s). repeat split.
      - destruct Hdir as [Hdir|[w1 Hmk]]; [discriminate|].
        exists w1. split; [exact Hmk|].
        split; eapply makedirs_needs_rebuild; eassumption. }
    rewrite (needs_rebuild_total _ _ target _ Hj), (needs_rebuild_total _ _ target _ Hs).
    destruct (negb (isfile (os s) target)
              || match getmtime (os s) target with
                 | Some mt => mt <? mj
                 | None => false
                 end) eqn:Hbj; cbn [orb].
    + rewrite run_subprocess_log. cbn [spawned].
      rewrite map_app. reflexivity.
    + destruct (negb (isfile (os s) target)
                || match getmtime (os s) target with
                   | Some mt => mt <? ms
                   | None => false
                   end) eqn:Hbs.
      * rewrite run_subprocess_log. cbn [spawned]. rewrite map_app. reflexivity.
      * cbn [snd spawned]. rewrite app_nil_r. reflexivity.
Qed.

End StalenessOfUnits.

(** ** Failure of the compiler *)

Section FailFast.
Context `{Host}.

Lemma run_subprocess_fail_fast (command : list string) (s : state) :
  Forall faithful (spawned s) ->
  Forall (fun e => ~ failed e) (spawned s) ->
  fail_fast (fst (run_subprocess command s)) (snd (run_subprocess command s)).
Proof.
  intros Hf Hok. unfold fail_fast. rewrite run_subprocess_log. split.
  { apply Forall_app. split; [exact Hf|]. constructor; [reflexivity|constructor]. }
  unfold run_subprocess.
  destruct (popen command (os s)) as [msg|rc w'] eqn:Hp; cbn [fst snd os].
  - right. exists (spawned s), (Spawn command (os s) (LaunchError msg)).
    repeat split; try exact Hok; try exact I.
  - destruct (rc =? 0) eqn:Hrc.
    + apply Z.eqb_eq in Hrc. subst rc.
      apply Forall_app. split; [exact Hok|].
      constructor; [|constructor]. unfold failed. cbn. lia.
    + apply Z.eqb_neq in Hrc.
      right. exists (spawned s), (Spawn command (os s) (Exited rc w')).
      repeat split; try exact Hok; try exact Hrc.
Qed.

Lemma build_file_fail_fast (options : CommandOptions) (schema json : string)
    (s : state) :
  Forall faithful (spawned s) ->
  Forall (fun e => ~ failed e) (spawned s) ->
  fail_fast (fst (build_file options schema json s))
    (snd (build_file options schema json s)).
Proof.
  intros Hf Hok. rewrite build_file_run. cbn zeta.
  assert (forall w1 f,
             fail_fast (Raise (OSError f)) {| os := w1; spawned := spawned s |}) as Hos.
  { intros w1 f. split; [exact Hf|]. left. split; [exact Hok|]. eauto. }
  assert (forall w1 x,
             needs_rebuild w1 json
               (processed_json_path json (project_path options) (build_path options))
             = Raise x \/
             needs_rebuild w1 schema
               (processed_json_path json (project_path options) (build_path options))
             = Raise x ->
             exists f, x = OSError f) as Hraise.
  { intros w1 x [Hx|Hx]; unfold needs_rebuild in Hx;
      destruct (isfile w1 _); cbn [negb] in Hx; try discriminate;
      repeat match type of Hx with
             | match ?o with _ => _ end = _ => destruct o
             end; try discriminate; injection Hx as <-; eauto. }
  destruct (if path_exists (os s) _ then Some (os s) else makedirs _ (os s))
    as [w1|].
  2:{ cbn [fst snd]. split; [exact Hf|]. left. split; [exact Hok|]. eauto. }
  cbn zeta.
  destruct (needs_rebuild w1 json _) as [[|]|x] eqn:Hj.
  - apply run_subprocess_fail_fast; assumption.
  - destruct (needs_rebuild w1 schema _) as [[|]|x] eqn:Hs.
    + apply run_subprocess_fail_fast; assumption.
    + cbn [fst snd]. split; [exact Hf|exact Hok].
    + cbn [fst snd]. destruct (Hraise w1 x (or_intror Hs)) as [f ->]. apply Hos.
  - cbn [fst snd]. destruct (Hraise w1 x (or_introl Hj)) as [f ->]. apply Hos.
Qed.

Lemma for_each_fail_fast {A} (l : list A) (body : A -> M unit) (s : state) :
  (forall x s0,
      Forall faithful (spawned s0) ->
      Forall (fun e => ~ failed e) (spawned s0) ->
      fail_fast (fst (body x s0)) (snd (body x s0))) ->
  Forall faithful (spawned s) ->
  Forall (fun e => ~ failed e) (spawned s) ->
  fail_fast (fst (for_each l body s)) (snd (for_each l body s)).
Proof.
  intros Hbody. revert s. induction l as [|x l IH]; intros s Hf Hok.
  - split; assumption.
  - cbn [for_each]. unfold bind.
    specialize (Hbody x s Hf Hok).
    destruct (body x s) as [[[]|e] s1]; cbn [fst snd] in *.
    + destruct Hbody as [Hf1 Hok1]. apply IH; assumption.
    + exact Hbody.
Qed.

Lemma split_last_inv {A} (pre post pre' : list A) (e e' : A) :
  (pre ++ e :: post = pre' ++ [e'])%list ->
  (post = [] /\ e = e') \/ In e pre'.
Proof.
  induction post as [|z post _] using rev_ind; intros Heq.
  - apply app_inj_tail in Heq as [_ <-]. left. split; reflexivity.
  - right. rewrite app_comm_cons, app_assoc in Heq.
    apply app_inj_tail in Heq as [<- _].
    apply in_or_app. right. left. reflexivity.
Qed.

(** A loop stops at the first element whose body raises. *)
Lemma for_each_stops {A} (done rest : list A) (x : A) (body : A -> M unit)
    (s s1 s2 : state) (e : exn) :
  for_each done body s = (Ok tt, s1) ->
  body x s1 = (Raise e, s2) ->
  for_each (done ++ x :: rest)%list body s = (Raise e, s2).
Proof.
  intros Hdone Hx. rewrite for_each_app, Hdone. cbn [for_each]. unfold bind.
  rewrite Hx. reflexivity.
Qed.

(** What [run_subprocess] does with a process that fails. *)
Lemma run_subprocess_raises (command : list string) (s0 : state) :
  (forall msg,
      popen command (os s0) = LaunchError msg ->
      run_subprocess command s0
      = (Raise (BuildError command 1 msg),
         {| os := os s0;
            spawned := (spawned s0
                        ++ [Spawn command (os s0) (LaunchError msg)])%list |}))
  /\ (forall rc w',
        popen command (os s0) = Exited rc w' -> rc <> 0 ->
        run_subprocess command s0
        = (Raise (BuildError command rc ""),
           {| os := w';
              spawned := (spawned s0
                          ++ [Spawn command (os s0) (Exited rc w')])%list |})).
Proof.
  split.
  - intros msg Hp. unfold run_subprocess. rewrite Hp. reflexivity.
  - intros rc w' Hp Hrc. unfold run_subprocess. rewrite Hp.
    apply Z.eqb_neq in Hrc. rewrite Hrc. reflexivity.
Qed.

(** A pass over a stale unit hands its command to [run_subprocess], on the
    file system the directory step left. *)
Lemma build_file_stale (options : CommandOptions) (schema json : string)
    (s1 : state) (w1 : world) :
  (if path_exists (os s1)
        (Path.dirname
           (processed_json_path json (project_path options) (build_path options)))
   then Some (os s1)
   else makedirs
          (Path.dirname
             (processed_json_path json (project_path options) (build_path options)))
          (os s1)) = Some w1 ->
  needs_rebuild w1 json
    (processed_json_path json (project_path options) (build_path options))
  = Ok true
  \/ (needs_rebuild w1 json
        (processed_json_path json (project_path options) (build_path options))
      = Ok false
      /\ needs_rebuild w1 schema
           (processed_json_path json (project_path options) (build_path options))
         = Ok true) ->
  build_file options schema json s1
  = run_subprocess (flatc_command options schema json)
      {| os := w1; spawned := spawned s1 |}.
Proof.
  intros Hdir Hstale. rewrite build_file_run. cbn zeta. rewrite Hdir.
  destruct Hstale as [->|[-> ->]]; reflexivity.
Qed.

(** C5: in a run of [generate_flatbuffers_binaries] that began with an
    empty log, (1) a compiler process that could not be started or exited
    with a non-zero status is the last process of the run, the run raises the
    [BuildError] carrying its command line and its exit status (1 and the
    system's message when it could not be started) and ends on the file
    system that process left; (2) the files of the plan after the one whose
    pass raised are not visited; (3) [run_subprocess] raises that
    [BuildError] whenever the process cannot be started or exits with a
    non-zero status; and (4) when the units in front of a stale unit have
    been processed and the compiler fails on that unit, the whole run raises
    the [BuildError] with the unit's command line, its log ends with that
    process and its file system is the one the process left: nothing after
    the failing unit is processed. *)
Theorem build_fail_fast (options : CommandOptions) (s : state) :
  spawned s = [] ->
  (forall r s',
      generate_flatbuffers_binaries options s = (r, s') ->
      forall pre e post,
        spawned s' = (pre ++ e :: post)%list ->
        outcome e = popen (argv e) (before e)
        /\ (failed e ->
            post = [] /\ r = Raise (reported e) /\ os s' = left_by e))
  /\ (forall done u rest s1 x s2,
        conversion_plan (os s) options = (done ++ u :: rest)%list ->
        for_each done (fun u => build_file options (fst (fst u)) (snd (fst u))) s
        = (Ok tt, s1) ->
        build_file options (fst (fst u)) (snd (fst u)) s1 = (Raise x, s2) ->
        generate_flatbuffers_binaries options s = (Raise x, s2))
  /\ (forall command s0,
        (forall msg,
            popen command (os s0) = LaunchError msg ->
            run_subprocess command s0
            = (Raise (BuildError command 1 msg),
               {| os := os s0;
                  spawned := (spawned s0
                              ++ [Spawn command (os s0) (LaunchError msg)])%list |}))
        /\ (forall rc w',
              popen command (os s0) = Exited rc w' -> rc <> 0 ->
              run_subprocess command s0
              = (Raise (BuildError command rc ""),
                 {| os := w';
                    spawned := (spawned s0
                                ++ [Spawn command (os s0) (Exited rc w')])%list |})))
  /\ (forall done schema json target rest s1 w1,
        conversion_plan (os s) options
        = (done ++ (schema, json, target) :: rest)%list ->
        for_each done (fun u => build_file options (fst (fst u)) (snd (fst u))) s
        = (Ok tt, s1) ->
        (if path_exists (os s1) (Path.dirname target)
         then Some (os s1) else makedirs (Path.dirname target) (os s1)) = Some w1 ->
        needs_rebuild w1 json target = Ok true
        \/ (needs_rebuild w1 json target = Ok false
            /\ needs_rebuild w1 schema target = Ok true) ->
        (forall msg,
            popen (flatc_command options schema json) w1 = LaunchError msg ->
            generate_flatbuffers_binaries options s
            = (Raise (BuildError (flatc_command options schema json) 1 msg),
               {| os := w1;
                  spawned := (spawned s1
                              ++ [Spawn (flatc_command options schema json) w1
                                    (LaunchError msg)])%list |}))
        /\ (forall rc w',
              popen (flatc_command options schema json) w1 = Exited rc w' ->
              rc <> 0 ->
              generate_flatbuffers_binaries options s
              = (Raise (BuildError (flatc_command options schema json) rc ""),
                 {| os := w';
                    spawned := (spawned s1
                                ++ [Spawn (flatc_command options schema json) w1
                                      (Exited rc w')])%list |}))).
Proof.
  intros Hlog. split; [|split; [|split]].
  - intros r s' Hrun pre e post Hsplit.
    assert (fail_fast r s') as [Hf Hr].
    { replace r with (fst (generate_flatbuffers_binaries options s))
        by (rewrite Hrun; reflexivity).
      replace s' with (snd (generate_flatbuffers_binaries options s))
        by (rewrite Hrun; reflexivity).
      rewrite generate_as_plan.
      apply for_each_fail_fast; [|rewrite Hlog; constructor..].
      intros u s0. apply build_file_fail_fast. }
    rewrite Hsplit in Hf. apply Forall_app in Hf as [_ Hf].
    apply Forall_cons in Hf as [Hf _]. split; [exact Hf|].
    intros Hfail.
    assert (forall l : list spawn,
               Forall (fun e => ~ failed e) l -> l = (pre ++ e :: post)%list -> False)
      as Hnot.
    { intros l Hl ->. apply Forall_app in Hl as [_ Hl].
      apply Forall_cons in Hl as [Hl _]. exact (Hl Hfail). }
    destruct r as [[]|x].
    + destruct (Hnot _ Hr Hsplit).
    + destruct Hr as [[Hr _]|(pre' & e' & Hlast & Hpre & Hfail' & -> & Hos)].
      * destruct (Hnot _ Hr Hsplit).
      * rewrite Hsplit in Hlast.
        destruct (split_last_inv _ _ _ _ _ Hlast) as [[-> <-]|Hin].
        -- repeat split; assumption.
        -- rewrite List.Forall_forall in Hpre. destruct (Hpre e Hin Hfail).
  - intros done u rest s1 x s2 Hplan Hdone Hu.
    rewrite generate_as_plan, Hplan.
    eapply for_each_stops; eassumption.
  - intros command s0. apply run_subprocess_raises.
  - intros done schema json target rest s1 w1 Hplan Hdone Hdir Hstale.
    assert (target
            = processed_json_path json (project_path options) (build_path options))
      as Htarget.
    { assert (In (schema, json, target) (conversion_plan (os s) options)) as Hin
        by (rewrite Hplan; apply in_or_app; right; left; reflexivity).
      unfold conversion_plan in Hin.
      apply in_flat_map in Hin as (el & _ & Hin).
      apply in_map_iff in Hin as (j & Hj & _). injection Hj as _ <- <-.
      reflexivity. }
    subst target.
    pose proof (build_file_stale options schema json s1 w1 Hdir Hstale) as Hpass.
    destruct (run_subprocess_raises (flatc_command options schema json)
                {| os := w1; spawned := spawned s1 |}) as [Hlaunch Hexit].
    cbn [os spawned] in Hlaunch, Hexit.
    split.
    + intros msg Hp. rewrite generate_as_plan, Hplan.
      eapply for_each_stops; [exact Hdone|]. cbn [fst snd].
      rewrite Hpass. apply Hlaunch, Hp.
    + intros rc w' Hp Hrc. rewrite generate_as_plan, Hplan.
      eapply for_each_stops; [exact Hdone|]. cbn [fst snd].
      rewrite Hpass. apply Hexit; assumption.
Qed.

End FailFast.

(** ** Clean *)

Section Clean.
Context `{Host}.

Lemma clean_file_run (options : CommandOptions) (json : string) (s : state) :
  clean_file options json s
  = (Ok tt,
     if isfile (os s)
          (processed_json_path json (project_path options) (build_path options))
     then {| os := os_remove
                     (processed_json_path json (project_path options)
                        (build_path options)) (os s);
             spawned := spawned s |}
     else s).
Proof.
  unfold clean_file, bind, observe, ret. cbn zeta.
  destruct (isfile (os s) _); reflexivity.
Qed.

Lemma isfile_remove (w : world) (t p : string) :
  isfile (os_remove t w) p = if String.eqb p t then false else isfile w p.
Proof.
  unfold isfile, os_remove. cbn [files].
  destruct (String.eqb p t) eqn:Hpt.
  - apply String.eqb_eq in Hpt. subst p. rewrite lookup_delete_eq. reflexivity.
  - apply String.eqb_neq in Hpt. rewrite lookup_delete_ne by congruence. reflexivity.
Qed.

(** The clean loop over any list of units: it succeeds, starts nothing,
    and the files left are those that were there, minus the targets that
    were regular files. *)
Lemma clean_loop (options : CommandOptions) (l : list (string * string * string))
    (s : state) :
  exists s',
    for_each l (fun u => clean_file options (snd (fst u))) s = (Ok tt, s')
    /\ spawned s' = spawned s
    /\ now (os s') = now (os s)
    /\ forall p,
         files (os s') !! p
         = if isfile (os s) p
              && existsb (String.eqb p)
                   (map (fun u => processed_json_path (snd (fst u))
                                    (project_path options) (build_path options)) l)
           then None else files (os s) !! p.
Proof.
  revert s. induction l as [|u l IH]; intros s.
  - exists s. repeat split. intros p. cbn [map existsb].
    rewrite andb_false_r. reflexivity.
  - cbn [for_each map existsb]. unfold bind. rewrite clean_file_run.
    set (t := processed_json_path (snd (fst u)) (project_path options)
                (build_path options)).
    destruct (isfile (os s) t) eqn:Ht.
    + destruct (IH {| os := os_remove t (os s); spawned := spawned s |})
        as (s' & Hrun & Hlog & Hnow & Hfiles).
      exists s'. split; [exact Hrun|]. split; [exact Hlog|]. split; [exact Hnow|].
      intros p. rewrite Hfiles. cbn [os]. rewrite isfile_remove.
      destruct (String.eqb p t) eqn:Hpt.
      * apply String.eqb_eq in Hpt. subst p. rewrite Ht. cbn.
        apply lookup_delete_eq.
      * cbn [orb]. apply String.eqb_neq in Hpt.
        unfold os_remove. cbn [files].
        rewrite lookup_delete_ne by congruence. reflexivity.
    + destruct (IH s) as (s' & Hrun & Hlog & Hnow & Hfiles).
      exists s'. split; [exact Hrun|]. split; [exact Hlog|]. split; [exact Hnow|].
      intros p. rewrite Hfiles.
      destruct (String.eqb p t) eqn:Hpt; [|reflexivity].
      apply String.eqb_eq in Hpt. subst p. rewrite Ht. reflexivity.
Qed.

Lemma plan_target (w : world) (options : CommandOptions) (schema json target : string) :
  In (schema, json, target) (conversion_plan w options) ->
  target = processed_json_path json (project_path options) (build_path options).
Proof.
  unfold conversion_plan. intros Hin.
  apply in_flat_map in Hin as (el & _ & Hin).
  apply in_map_iff in Hin as (j & Hj & _). injection Hj as _ <- <-. reflexivity.
Qed.

(** C8: [clean_flatbuffers_binaries] walks the plan that
    [generate_flatbuffers_binaries] walks, with the same targets, and looks
    at no time stamp; it never raises; every target of the plan that is a
    regular file is gone afterwards; whatever is not a regular file
    (missing paths, directories) and whatever is not a target of the plan is
    left as it was; no process is started. *)
Theorem clean_removes_exactly_targets (options : CommandOptions) (s : state) :
  generate_flatbuffers_binaries options s
  = for_each (conversion_plan (os s) options)
      (fun u => build_file options (fst (fst u)) (snd (fst u))) s
  /\ clean_flatbuffers_binaries options s
     = for_each (conversion_plan (os s) options)
         (fun u => clean_file options (snd (fst u))) s
  /\ exists s',
       clean_flatbuffers_binaries options s = (Ok tt, s')
       /\ spawned s' = spawned s
       /\ (forall schema json target,
             In (schema, json, target) (conversion_plan (os s) options) ->
             target = processed_json_path json (project_path options)
                        (build_path options)
             /\ (isfile (os s) target = true -> files (os s') !! target = None))
       /\ (forall p, isfile (os s) p = false ->
                     files (os s') !! p = files (os s) !! p)
       /\ (forall p m, files (os s) !! p = Some (Dir m) ->
                       files (os s') !! p = Some (Dir m))
       /\ (forall p,
             (forall schema json,
                 ~ In (schema, json, p) (conversion_plan (os s) options)) ->
             files (os s') !! p = files (os s) !! p).
Proof.
  split; [apply generate_as_plan|]. split; [apply clean_as_plan|].
  rewrite clean_as_plan.
  destruct (clean_loop options (conversion_plan (os s) options) s)
    as (s' & Hrun & Hlog & _ & Hfiles).
  exists s'. split; [exact Hrun|]. split; [exact Hlog|].
  assert (forall p, isfile (os s) p = false ->
                    files (os s') !! p = files (os s) !! p) as Hkeep.
  { intros p Hp. rewrite Hfiles, Hp. reflexivity. }
  split; [|split; [exact Hkeep|split]].
  - intros schema json target Hin.
    pose proof (plan_target _ _ _ _ _ Hin) as Ht. split; [exact Ht|].
    intros Hfile. rewrite Hfiles, Hfile. cbn [andb].
    assert (existsb (String.eqb target)
              (map (fun u => processed_json_path (snd (fst u))
                               (project_path options) (build_path options))
                 (conversion_plan (os s) options)) = true) as ->; [|reflexivity].
    apply existsb_exists. exists target. split; [|apply String.eqb_refl].
    apply in_map_iff. exists (schema, json, target). split; [|exact Hin].
    cbn [fst snd]. symmetry. exact Ht.
  - intros p m Hp. rewrite Hkeep; [exact Hp|]. unfold isfile. rewrite Hp. reflexivity.
  - intros p Hnot. rewrite Hfiles.
    destruct (existsb _ _) eqn:Hex; [|rewrite andb_false_r; reflexivity].
    exfalso. apply existsb_exists in Hex as (t & Hin & Heq).
    apply String.eqb_eq in Heq. subst t.
    apply in_map_iff in Hin as ([[schema json] target] & Hp & Hin).
    cbn [fst snd] in Hp.
    apply (Hnot schema json).
    rewrite <- Hp, <- (plan_target _ _ _ _ _ Hin). exact Hin.
Qed.

End Clean.

(** ** Building twice *)

Section Idempotence.
Context `{Host}.
Variable options : CommandOptions.

Variable plan : list (string * string * string).
Variable w0 : world.

Hypothesis inputs_exist :
  forall u, In u plan ->
    is_Some (files w0 !! snd (fst u)) /\ is_Some (files w0 !! fst (fst u)).

Hypothesis targets_apart :
  forall u u', In u plan -> In u' plan ->
    unit_target options u <> snd (fst u') /\ unit_target options u <> fst (fst u').

Hypothesis compiler_writes_target :
  forall u w w', In u plan ->
    popen (flatc_command options (fst (fst u)) (snd (fst u))) w = Exited 0 w' ->
    exists m,
      files w' = <[unit_target options u := File m]> (files w)
      /\ forall p n, files w !! p = Some n -> node_mtime n <= m.

Lemma up_to_date_makedirs (d : string) (w w1 : world) (u : string * string * string) :
  makedirs d w = Some w1 -> up_to_date options w u -> up_to_date options w1 u.
Proof.
  intros Hmk (Hdir & mt & nj & ns & Ht & Hj & Hs & Hle).
  split.
  - unfold path_exists in *.
    destruct (files w !! Path.dirname (unit_target options u)) as [n|] eqn:Hn;
      [|discriminate].
    rewrite (makedirs_keeps _ _ _ _ _ Hmk Hn). reflexivity.
  - exists mt, nj, ns.
    rewrite (makedirs_keeps _ _ _ _ _ Hmk Ht), (makedirs_keeps _ _ _ _ _ Hmk Hj),
      (makedirs_keeps _ _ _ _ _ Hmk Hs).
    repeat split; tauto.
Qed.

Lemma inputs_kept_makedirs (d : string) (w w1 : world) :
  makedirs d w = Some w1 -> inputs_kept w0 w plan -> inputs_kept w0 w1 plan.
Proof.
  intros Hmk Hkept u Hu.
  destruct (Hkept u Hu) as [Hj Hs], (inputs_exist u Hu) as [[nj Hnj] [ns Hns]].
  rewrite Hnj in Hj. rewrite Hns in Hs.
  rewrite (makedirs_keeps _ _ _ _ _ Hmk Hj), (makedirs_keeps _ _ _ _ _ Hmk Hs).
  split; congruence.
Qed.

Lemma up_to_date_written (w w' : world) (u v : string * string * string) (m : Z) :
  In u plan -> In v plan ->
  files w' = <[unit_target options u := File m]> (files w) ->
  (forall p n, files w !! p = Some n -> node_mtime n <= m) ->
  up_to_date options w v -> up_to_date options w' v.
Proof.
  intros Hu Hv Hw' Hm (Hdir & mt & nj & ns & Ht & Hj & Hs & Hlej & Hles).
  destruct (targets_apart u v Hu Hv) as [Hnej Hnes].
  split.
  - unfold path_exists in *. rewrite Hw'.
    destruct (decide (unit_target options u = Path.dirname (unit_target options v))) as [->|Hne].
    + rewrite lookup_insert_eq. reflexivity.
    + rewrite lookup_insert_ne by exact Hne. exact Hdir.
  - destruct (decide (unit_target options u = unit_target options v)) as [Heq|Hne].
    + exists m, nj, ns. rewrite Hw', Heq, lookup_insert_eq.
      rewrite <- Heq, !lookup_insert_ne by assumption.
      repeat split; eauto.
    + exists mt, nj, ns. rewrite Hw', !lookup_insert_ne by assumption.
      repeat split; assumption.
Qed.

Lemma inputs_kept_written (w w' : world) (u : string * string * string) (m : Z) :
  In u plan ->
  files w' = <[unit_target options u := File m]> (files w) ->
  inputs_kept w0 w plan -> inputs_kept w0 w' plan.
Proof.
  intros Hu Hw' Hkept v Hv.
  destruct (targets_apart u v Hu Hv) as [Hnej Hnes], (Hkept v Hv) as [Hj Hs].
  rewrite Hw', !lookup_insert_ne by assumption. split; assumption.
Qed.

(** A verdict [False] on both inputs means the unit is up to date. *)
Lemma not_stale_up_to_date (w : world) (u : string * string * string) :
  In u plan -> inputs_kept w0 w plan ->
  path_exists w (Path.dirname (unit_target options u)) = true ->
  needs_rebuild w (snd (fst u)) (unit_target options u) = Ok false ->
  needs_rebuild w (fst (fst u)) (unit_target options u) = Ok false ->
  up_to_date options w u.
Proof.
  intros Hu Hkept Hdir Hj Hs.
  destruct (Hkept u Hu) as [Hkj Hks], (inputs_exist u Hu) as [[nj Hnj] [ns Hns]].
  rewrite Hnj in Hkj. rewrite Hns in Hks.
  unfold needs_rebuild, getmtime in Hj, Hs. rewrite Hkj in Hj. rewrite Hks in Hs.
  destruct (isfile w (unit_target options u)) eqn:Hfile; [|discriminate].
  apply isfile_lookup in Hfile as [mt Hmt]. rewrite Hmt in Hj, Hs.
  cbn in Hj, Hs. injection Hj as Hj. injection Hs as Hs.
  apply Z.ltb_ge in Hj, Hs.
  split; [exact Hdir|]. exists mt, nj, ns. repeat split; assumption.
Qed.

(** An up-to-date unit is not stale. *)
Lemma up_to_date_not_stale (w : world) (u : string * string * string) :
  up_to_date options w u ->
  needs_rebuild w (snd (fst u)) (unit_target options u) = Ok false
  /\ needs_rebuild w (fst (fst u)) (unit_target options u) = Ok false.
Proof.
  intros (_ & mt & nj & ns & Ht & Hj & Hs & Hlej & Hles).
  unfold needs_rebuild, isfile, getmtime. rewrite Ht, Hj, Hs. cbn.
  split; f_equal; apply Z.ltb_ge; assumption.
Qed.

(** The staleness check and the compiler call of one pass, from a file
    system on which the target directory exists: when they succeed, the unit
    is up to date and the units already up to date stay so. *)
Lemma checked_unit_establishes (u : string * string * string)
    (done : list (string * string * string)) (w1 : world) (log : list spawn)
    (s' : state) :
  In u plan -> (forall v, In v done -> In v plan) ->
  path_exists w1 (Path.dirname (unit_target options u)) = true ->
  inputs_kept w0 w1 plan ->
  (forall v, In v done -> up_to_date options w1 v) ->
  match needs_rebuild w1 (snd (fst u)) (unit_target options u) with
  | Raise e => (Raise e, {| os := w1; spawned := log |})
  | Ok stale_json =>
      match (if stale_json : bool then Ok true
             else needs_rebuild w1 (fst (fst u)) (unit_target options u)) with
      | Raise e => (Raise e, {| os := w1; spawned := log |})
      | Ok true =>
          run_subprocess (flatc_command options (fst (fst u)) (snd (fst u)))
            {| os := w1; spawned := log |}
      | Ok false => (Ok tt, {| os := w1; spawned := log |})
      end
  end = (Ok tt, s') ->
  inputs_kept w0 (os s') plan
  /\ (forall v, In v (u :: done) -> up_to_date options (os s') v).
Proof.
  intros Hu Hdone Hdir Hkept Hfresh.
  assert (forall s2,
             run_subprocess (flatc_command options (fst (fst u)) (snd (fst u)))
               {| os := w1; spawned := log |} = (Ok tt, s2) ->
             inputs_kept w0 (os s2) plan
             /\ (forall v, In v (u :: done) -> up_to_date options (os s2) v))
    as Hcompile.
  { intros s2. unfold run_subprocess. cbn [os].
    destruct (popen _ w1) as [msg|rc w'] eqn:Hp; [discriminate|].
    destruct (rc =? 0) eqn:Hrc; [|discriminate].
    apply Z.eqb_eq in Hrc. subst rc. intros [= <-]. cbn [os].
    destruct (compiler_writes_target u w1 w' Hu Hp) as (m & Hw' & Hm).
    split; [eapply inputs_kept_written; eassumption|].
    intros v [<-|Hv].
    - destruct (Hkept u Hu) as [Hkj Hks],
        (inputs_exist u Hu) as [[nj Hnj] [ns Hns]],
        (targets_apart u u Hu Hu) as [Hnej Hnes].
      rewrite Hnj in Hkj. rewrite Hns in Hks.
      split.
      + unfold path_exists in *. rewrite Hw'.
        destruct (decide (unit_target options u = Path.dirname (unit_target options u))) as [Heq|Hne].
        * rewrite <- Heq, lookup_insert_eq. reflexivity.
        * rewrite lookup_insert_ne by exact Hne. exact Hdir.
      + exists m, nj, ns.
        rewrite Hw', lookup_insert_eq, !lookup_insert_ne by assumption.
        repeat split; eauto.
    - eapply up_to_date_written; eauto. }
  destruct (needs_rebuild w1 (snd (fst u)) (unit_target options u)) as [[|]|x] eqn:Hj.
  - apply Hcompile.
  - destruct (needs_rebuild w1 (fst (fst u)) (unit_target options u)) as [[|]|x] eqn:Hs.
    + apply Hcompile.
    + intros [= <-]. cbn [os]. split; [exact Hkept|].
      intros v [<-|Hv]; [|apply Hfresh, Hv].
      apply not_stale_up_to_date; assumption.
    + discriminate.
  - discriminate.
Qed.

(** One pass of the build loop that succeeds leaves its unit up to date
    and keeps the units already up to date. *)
Lemma build_file_establishes (u : string * string * string)
    (done : list (string * string * string)) (s s' : state) :
  In u plan -> (forall v, In v done -> In v plan) ->
  inputs_kept w0 (os s) plan ->
  (forall v, In v done -> up_to_date options (os s) v) ->
  build_file options (fst (fst u)) (snd (fst u)) s = (Ok tt, s') ->
  inputs_kept w0 (os s') plan
  /\ (forall v, In v (u :: done) -> up_to_date options (os s') v).
Proof.
  intros Hu Hdone Hkept Hfresh. rewrite build_file_run. cbn zeta.
  fold (unit_target options u).
  destruct (path_exists (os s) (Path.dirname (unit_target options u))) eqn:Hd.
  - apply checked_unit_establishes; assumption.
  - destruct (makedirs _ (os s)) as [w1|] eqn:Hmk; [|discriminate].
    apply checked_unit_establishes; try assumption.
    + eapply makedirs_creates, Hmk.
    + eapply inputs_kept_makedirs; eassumption.
    + intros v Hv. eapply up_to_date_makedirs; [exact Hmk|]. apply Hfresh, Hv.
Qed.

(** A successful run over units of the plan leaves them all up to date. *)
Lemma build_loop_establishes (l done : list (string * string * string))
    (s s' : state) :
  (forall v, In v l -> In v plan) -> (forall v, In v done -> In v plan) ->
  inputs_kept w0 (os s) plan ->
  (forall v, In v done -> up_to_date options (os s) v) ->
  for_each l (fun u => build_file options (fst (fst u)) (snd (fst u))) s
  = (Ok tt, s') ->
  inputs_kept w0 (os s') plan
  /\ (forall v, In v (l ++ done) -> up_to_date options (os s') v).
Proof.
  revert done s. induction l as [|u l IH]; intros done s Hl Hdone Hkept Hfresh.
  - intros [= <-]. split; assumption.
  - cbn [for_each]. unfold bind.
    destruct (build_file options (fst (fst u)) (snd (fst u)) s)
      as [[[]|x] s1] eqn:Hu; [|discriminate].
    intros Hrest.
    destruct (build_file_establishes u done s s1) as [Hkept1 Hfresh1];
      try assumption; [apply Hl; left; reflexivity|].
    destruct (IH (u :: done) s1) as [Hkept2 Hfresh2]; try assumption.
    + intros v Hv. apply Hl. right. exact Hv.
    + intros v [<-|Hv]; [apply Hl; left; reflexivity|apply Hdone, Hv].
    + split; [exact Hkept2|].
      intros v Hv. apply Hfresh2.
      cbn [app] in Hv. destruct Hv as [<-|Hv].
      * apply in_or_app. right. left. reflexivity.
      * apply in_app_or in Hv as [Hv|Hv]; apply in_or_app;
          [left; exact Hv|right; right; exact Hv].
Qed.

(** On a file system where the units are up to date, the build loop does
    nothing at all. *)
Lemma build_loop_idle (l : list (string * string * string)) (s : state) :
  (forall v, In v l -> up_to_date options (os s) v) ->
  for_each l (fun u => build_file options (fst (fst u)) (snd (fst u))) s
  = (Ok tt, s).
Proof.
  induction l as [|u l IH]; intros Hfresh; [reflexivity|].
  cbn [for_each]. unfold bind. rewrite build_file_run. cbn zeta.
  fold (unit_target options u).
  assert (up_to_date options (os s) u) as Hu by (apply Hfresh; left; reflexivity).
  destruct (up_to_date_not_stale _ _ Hu) as [Hj Hs].
  destruct Hu as [-> _]. rewrite Hj, Hs, state_eta.
  apply IH. intros v Hv. apply Hfresh. right. exact Hv.
Qed.

End Idempotence.

Section BuildTwice.
Context `{Host}.

(** X23: after a build that succeeded, a second build on the file system
    it left starts no compiler process (and changes nothing), provided that
    the second run lists the same units, that the inputs of the units exist
    and are not themselves targets, and that a compiler that exits with 0
    has written exactly the target path computed for its unit, stamped no
    earlier than any file present at that time. *)
Theorem second_build_starts_nothing (options : CommandOptions) (s s1 : state) :
  generate_flatbuffers_binaries options s = (Ok tt, s1) ->
  conversion_plan (os s1) options = conversion_plan (os s) options ->
  (forall schema json target,
      In (schema, json, target) (conversion_plan (os s) options) ->
      is_Some (files (os s) !! json) /\ is_Some (files (os s) !! schema)) ->
  (forall schema json target schema' json' target',
      In (schema, json, target) (conversion_plan (os s) options) ->
      In (schema', json', target') (conversion_plan (os s) options) ->
      target <> json' /\ target <> schema') ->
  (forall schema json target w w',
      In (schema, json, target) (conversion_plan (os s) options) ->
      popen (flatc_command options schema json) w = Exited 0 w' ->
      exists m,
        files w' = <[target := File m]> (files w)
        /\ forall p n, files w !! p = Some n -> node_mtime n <= m) ->
  exists s2,
    generate_flatbuffers_binaries options s1 = (Ok tt, s2)
    /\ spawned s2 = spawned s1
    /\ os s2 = os s1.
Proof.
  intros Hrun Hplan Hexist Hapart Hcompiler.
  set (plan := conversion_plan (os s) options) in *.
  assert (forall u, In u plan -> unit_target options u = snd u) as Htarget.
  { intros [[schema json] target] Hu. symmetry.
    exact (plan_target _ _ _ _ _ Hu). }
  exists s1. split; [|split; reflexivity].
  rewrite generate_as_plan, Hplan.
  apply build_loop_idle.
  rewrite generate_as_plan in Hrun. fold plan in Hrun.
  assert (forall u, In u plan ->
            is_Some (files (os s) !! snd (fst u))
            /\ is_Some (files (os s) !! fst (fst u))) as Hexist'.
  { intros [[schema json] target] Hu. exact (Hexist _ _ _ Hu). }
  assert (forall u u', In u plan -> In u' plan ->
            unit_target options u <> snd (fst u')
            /\ unit_target options u <> fst (fst u')) as Hapart'.
  { intros u [[schema' json'] target'] Hu Hu'. rewrite (Htarget u Hu).
    destruct u as [[schema json] target]. exact (Hapart _ _ _ _ _ _ Hu Hu'). }
  assert (forall u w w', In u plan ->
            popen (flatc_command options (fst (fst u)) (snd (fst u))) w = Exited 0 w' ->
            exists m,
              files w' = <[unit_target options u := File m]> (files w)
              /\ forall p n, files w !! p = Some n -> node_mtime n <= m) as Hcompiler'.
  { intros u w w' Hu Hp. rewrite (Htarget u Hu).
    destruct u as [[schema json] target]. exact (Hcompiler _ _ _ _ _ Hu Hp). }
  pose proof (build_loop_establishes options plan (os s) Hexist' Hapart' Hcompiler'
                plan [] s s1) as Hloop.
  destruct Hloop as [_ Hfresh].
  - intros v Hv. exact Hv.
  - intros v [].
  - intros u Hu. split; reflexivity.
  - intros v [].
  - exact Hrun.
  - intros v Hv. apply Hfresh. rewrite app_nil_r. exact Hv.
Qed.

End BuildTwice.

(** ** The concrete host *)

Section SampleFacts.

Lemma latest_ge (w : world) (p : string) (n : node) :
  files w !! p = Some n -> node_mtime n <= Sample.latest w.
Proof.
  unfold Sample.latest. revert p n.
  apply (map_fold_weak_ind
           (fun acc (m : gmap string node) =>
              forall p n, m !! p = Some n -> node_mtime n <= acc)).
  - intros p n Hp. rewrite lookup_empty in Hp. discriminate.
  - intros q x m acc Hq IH p n Hp.
    destruct (decide (q = p)) as [->|Hne].
    + rewrite lookup_insert_eq in Hp. injection Hp as ->. lia.
    + rewrite lookup_insert_ne in Hp by exact Hne.
      specialize (IH p n Hp). lia.
Qed.

Lemma listing_exists (w : world) (pattern : string) (recursive : bool) (p : string) :
  In p (Sample.listing w pattern recursive) -> is_Some (getmtime w p).
Proof.
  unfold Sample.listing. intros Hin.
  apply list_elem_of_In, list_elem_of_filter in Hin as [_ Hin].
  apply list_elem_of_In, in_map_iff in Hin as ([q n] & <- & Hin).
  apply list_elem_of_In, elem_of_map_to_list in Hin.
  unfold getmtime. cbn [fst]. rewrite Hin. cbn. eauto.
Qed.

Lemma compiler_exit_0 (out_dir inc bfbs json : string) (w w' : world) :
  Sample.compiler ["flatc"; "-o"; out_dir; "-I"; inc; "-b"; bfbs; json] w
  = Exited 0 w' ->
  files w' = <[Sample.artifact out_dir json := File (Sample.latest w)]> (files w).
Proof.
  cbn. destruct (isfile w bfbs && isfile w json); [|discriminate].
  intros [= <-]. reflexivity.
Qed.

Lemma fresh_project_plan :
  conversion_plan (H := Sample.host) Sample.fresh_project Sample.options
  = [("schemas/sound_definition.bfbs", "proj/sounds/a.json", "out/sounds/a.amsound")].
Proof. vm_compute. reflexivity. Qed.

End SampleFacts.

(** ** The definitions at work *)

Section Witnesses.

(** C2: every category of the design document, environments included,
    should be listed by build and clean; [get_conversion_data] has no entry
    for [environments], so a project whose only data file is
    [proj/environments/room.json] (which the directory listing reports under
    the environments pattern) has an empty plan: build and clean both return
    without having looked at the file. *)
Theorem environments_not_listed :
  glob (Host := Sample.host) Sample.environment_project
    (category_pattern "proj" ENVIRONMENTS_DIR_NAME) true
  = ["proj/environments/room.json"]
  /\ List.length
       (get_conversion_data (H := Sample.host) Sample.environment_project "proj"
          ["schemas"]) = 12%nat
  /\ conversion_plan (H := Sample.host) Sample.environment_project Sample.options = []
  /\ generate_flatbuffers_binaries (H := Sample.host) Sample.options
       (Sample.start Sample.environment_project)
     = (Ok tt, Sample.start Sample.environment_project)
  /\ clean_flatbuffers_binaries (H := Sample.host) Sample.options
       (Sample.start Sample.environment_project)
     = (Ok tt, Sample.start Sample.environment_project).
Proof. repeat split; vm_compute; reflexivity. Qed.

Lemma rebuild_iff_stale_witness :
  (exists b,
      needs_rebuild Sample.built_project "proj/sounds/a.json" "out/sounds/a.amsound"
      = Ok b
      /\ (b = true <->
          isfile Sample.built_project "out/sounds/a.amsound" = false
          \/ exists mt,
               getmtime Sample.built_project "out/sounds/a.amsound" = Some mt
               /\ mt < 10)
      /\ (isfile Sample.built_project "out/sounds/a.amsound" = true ->
          getmtime Sample.built_project "out/sounds/a.amsound" = Some 10 ->
          b = false))
  /\ exists bj bs,
       needs_rebuild Sample.fresh_project "proj/sounds/a.json" "out/sounds/a.amsound"
       = Ok bj
       /\ needs_rebuild Sample.fresh_project "schemas/sound_definition.bfbs"
            "out/sounds/a.amsound" = Ok bs
       /\ map argv
            (spawned
               (snd (build_file (H := Sample.host) Sample.options
                       "schemas/sound_definition.bfbs" "proj/sounds/a.json"
                       (Sample.start Sample.fresh_project))))
          = (if bj || bs
             then [flatc_command Sample.options "schemas/sound_definition.bfbs"
                     "proj/sounds/a.json"]
             else []).
Proof.
  split.
  - apply (proj1 rebuild_iff_stale Sample.built_project "proj/sounds/a.json"
             "out/sounds/a.amsound" 10).
    vm_compute. reflexivity.
  - apply (proj2 rebuild_iff_stale Sample.host Sample.options
             "schemas/sound_definition.bfbs" "proj/sounds/a.json"
             (Sample.start Sample.fresh_project) 10 5).
    + vm_compute. reflexivity.
    + vm_compute. reflexivity.
    + right. vm_compute. eexists. reflexivity.
Defined.

Lemma needs_rebuild_requires_source_witness :
  needs_rebuild Sample.built_project "proj/sounds/gone.json" "out/sounds/a.amsound"
  = Raise (OSError "proj/sounds/gone.json")
  /\ (exists b,
        needs_rebuild Sample.built_project "proj/sounds/a.json" "out/sounds/a.amsound"
        = Ok b)
  /\ needs_rebuild Sample.fresh_project "proj/sounds/gone.json" "out/sounds/a.amsound"
     = Ok true
  /\ (exists b,
        needs_rebuild Sample.fresh_project "proj/sounds/a.json" "out/sounds/a.amsound"
        = Ok b).
Proof.
  pose proof needs_rebuild_requires_source as (Htotal & Hraise & Hmissing & Hplan).
  split; [|split; [|split]].
  - apply Hraise; vm_compute; reflexivity.
  - apply Htotal. vm_compute. eexists. reflexivity.
  - apply Hmissing. vm_compute. reflexivity.
  - apply (Hplan Sample.host Sample.fresh_project Sample.options)
      with (schema := "schemas/sound_definition.bfbs").
    + intros pattern recursive p. apply listing_exists.
    + rewrite fresh_project_plan. left. reflexivity.
Defined.

Lemma build_fail_fast_witness :
  fst (generate_flatbuffers_binaries (H := Sample.host) Sample.options
         (Sample.start Sample.no_schema_project))
  = Raise (BuildError
             ["flatc"; "-o"; "out/sounds"; "-I"; "schemas"; "-b";
              "sound_definition.bfbs"; "proj/sounds/a.json"] 2 "")
  /\ map argv
       (spawned
          (snd (generate_flatbuffers_binaries (H := Sample.host) Sample.options
                  (Sample.start Sample.no_schema_project))))
     = [["flatc"; "-o"; "out/sounds"; "-I"; "schemas"; "-b";
         "sound_definition.bfbs"; "proj/sounds/a.json"]].
Proof.
  destruct (build_fail_fast (H := Sample.host) Sample.options
              (Sample.start Sample.no_schema_project) eq_refl)
    as (_ & _ & _ & Hunit).
  destruct (Hunit [] "sound_definition.bfbs" "proj/sounds/a.json"
              "out/sounds/a.amsound" []
              (Sample.start Sample.no_schema_project)
              (match makedirs "out/sounds" Sample.no_schema_project with
               | Some w => w
               | None => Sample.no_schema_project
               end)) as [_ Hexit].
  - vm_compute. reflexivity.
  - reflexivity.
  - vm_compute. reflexivity.
  - left. vm_compute. reflexivity.
  - rewrite (Hexit 2
               (match makedirs "out/sounds" Sample.no_schema_project with
                | Some w => w
                | None => Sample.no_schema_project
                end)).
    + split; reflexivity.
    + vm_compute. reflexivity.
    + lia.
Defined.

Lemma second_build_starts_nothing_witness :
  exists s2,
    generate_flatbuffers_binaries (H := Sample.host) Sample.options
      (snd (generate_flatbuffers_binaries (H := Sample.host) Sample.options
              (Sample.start Sample.fresh_project)))
    = (Ok tt, s2)
    /\ spawned s2
       = spawned (snd (generate_flatbuffers_binaries (H := Sample.host)
                         Sample.options (Sample.start Sample.fresh_project)))
    /\ os s2
       = os (snd (generate_flatbuffers_binaries (H := Sample.host)
                    Sample.options (Sample.start Sample.fresh_project))).
Proof.
  apply (second_build_starts_nothing (H := Sample.host) Sample.options
           (Sample.start Sample.fresh_project)).
  - vm_compute. reflexivity.
  - vm_compute. reflexivity.
  - cbn [os Sample.start]. rewrite fresh_project_plan.
    intros schema json target [[= <- <- <-]|[]].
    split; vm_compute; eexists; reflexivity.
  - cbn [os Sample.start]. rewrite fresh_project_plan.
    intros schema json target schema' json' target'
      [[= <- <- <-]|[]] [[= <- <- <-]|[]].
    split; discriminate.
  - cbn [os Sample.start]. rewrite fresh_project_plan.
    intros schema json target w w' [[= <- <- <-]|[]] Hp.
    exists (Sample.latest w). split.
    + exact (compiler_exit_0 _ _ _ _ _ _ Hp).
    + intros p n. apply latest_ge.
Defined.

End Witnesses.

(** * Further properties of the script *)

(** ** [str.replace] *)

Section ReplaceFacts.

Lemma contains_nil_l (s : string) : Str.contains "" s = true.
Proof. destruct s; reflexivity. Qed.

Lemma replace_scan_cons (c : ascii) (s old new : string) :
  Str.replace_scan 0 (String c s) old new
  = if Str.startswith (String c s) old
    then (new ++ Str.replace_scan (Nat.pred (String.length old)) s old new)%string
    else String c (Str.replace_scan 0 s old new).
Proof. reflexivity. Qed.

(** Without an occurrence of [old] nothing is replaced. *)
Lemma replace_absent (s old new : string) :
  Str.contains old s = false -> Str.replace s old new = s.
Proof.
  destruct old as [|a old]; [rewrite contains_nil_l; discriminate|].
  unfold Str.replace.
  induction s as [|c s IH]; intros Hs; [reflexivity|].
  cbn [Str.contains] in Hs. apply orb_false_iff in Hs as [Hhere Hs].
  rewrite replace_scan_cons, Hhere, (IH Hs). reflexivity.
Qed.

Lemma replace_scan_skip (x r old new : string) :
  Str.replace_scan (String.length x) (x ++ r) old new
  = Str.replace_scan 0 r old new.
Proof.
  induction x as [|c x IH]; [reflexivity|].
  rewrite append_cons. cbn [String.length Str.replace_scan]. exact IH.
Qed.

(** A leading occurrence is replaced and the scan goes on behind it. *)
Lemma replace_prefix (old r new : string) :
  old <> "" ->
  Str.replace (old ++ r) old new = (new ++ Str.replace r old new)%string.
Proof.
  destruct old as [|a old]; [congruence|]. intros _.
  unfold Str.replace. rewrite append_cons, replace_scan_cons.
  rewrite <- append_cons, startswith_app.
  cbn [String.length Nat.pred]. rewrite replace_scan_skip. reflexivity.
Qed.

(** The scan walks over a front part in which no occurrence starts. *)
Lemma replace_scan_front (a b old new : string) :
  (forall a1 a2, a = (a1 ++ a2)%string -> a2 <> "" ->
                 Str.startswith (a2 ++ b) old = false) ->
  Str.replace_scan 0 (a ++ b) old new = (a ++ Str.replace_scan 0 b old new)%string.
Proof.
  induction a as [|c a IH]; intros Hclear; [reflexivity|].
  rewrite !append_cons, replace_scan_cons.
  rewrite <- append_cons, (Hclear "" (String c a) eq_refl) by discriminate.
  rewrite IH; [reflexivity|].
  intros a1 a2 -> Ha2. exact (Hclear (String c a1) a2 eq_refl Ha2).
Qed.

Lemma drop_app_length (x r : string) :
  Sample.drop (String.length x) (x ++ r) = r.
Proof. induction x as [|c x IH]; [destruct r; reflexivity|exact IH]. Qed.

Lemma replace_scan_same (a s : string) (k : nat) :
  a <> "" -> Str.replace_scan k s a a = Sample.drop k s.
Proof.
  intros Ha. revert k. induction s as [|c s IH]; intros k.
  - destruct k; reflexivity.
  - destruct k as [|k]; [|cbn [Str.replace_scan Sample.drop]; apply IH].
    rewrite replace_scan_cons. cbn [Sample.drop].
    destruct (Str.startswith (String c s) a) eqn:Hp.
    + destruct (startswith_inv _ _ Hp) as [t Ht].
      destruct a as [|a0 a]; [congruence|].
      rewrite append_cons in Ht. injection Ht as <- ->.
      rewrite IH. cbn [String.length Nat.pred].
      rewrite drop_app_length. reflexivity.
    + rewrite IH. destruct s; reflexivity.
Qed.

(** Replacing a string by itself changes nothing. *)
Lemma replace_same (s a : string) : Str.replace s a a = s.
Proof.
  destruct a as [|a0 a].
  - unfold Str.replace. induction s as [|c s IH]; [reflexivity|].
    cbn [Str.replace_empty] in *. rewrite append_nil_l in *. rewrite IH.
    reflexivity.
  - unfold Str.replace. rewrite replace_scan_same by discriminate.
    destruct s; reflexivity.
Qed.

(** No occurrence of [".json"] starts inside a part that does not contain
    it and is followed by a separator. *)
Lemma json_clear_of_front (a rel : string) :
  Str.contains ".json" a = false ->
  Str.startswith rel "/" = true ->
  forall a1 a2, a = (a1 ++ a2)%string -> a2 <> "" ->
                Str.startswith (a2 ++ rel) ".json" = false.
Proof.
  intros Ha Hrel a1 a2 -> Ha2.
  destruct (startswith_inv _ _ Hrel) as [rel' ->].
  destruct (Str.startswith (a2 ++ "/" ++ rel') ".json") eqn:Hp; [|reflexivity].
  exfalso.
  destruct a2 as [|c1 [|c2 [|c3 [|c4 [|c5 a2]]]]]; [congruence|..];
    rewrite ?append_cons, ?append_nil_l in Hp; cbn [Str.startswith] in Hp;
    repeat match type of Hp with
           | (?x && ?y)%bool = true =>
               let H1 := fresh in
               apply andb_true_iff in Hp as [H1 Hp];
               try (apply Ascii.eqb_eq in H1; subst)
           end; try discriminate.
  change (String "." (String "j" (String "s" (String "o" (String "n" a2)))))
    with (".json" ++ a2)%string in Ha.
  rewrite contains_app in Ha. discriminate.
Qed.

End ReplaceFacts.

(** ** More on the path mapper *)

Section PathMapperMore.

(** X1: for a source path made of the project path and a rest that starts
    with a separator, when the project path is not empty, contains no
    [".json"] and does not occur again in the rest once its extension is
    substituted, the target is the build path followed by that rest; it then
    ends with the selected extension whenever the source ends with
    [".json"]. *)
Theorem processed_json_path_under_project (input_path output_path rel : string) :
  input_path <> "" ->
  Str.startswith rel "/" = true ->
  Str.contains ".json" input_path = false ->
  Str.contains input_path
    (Str.replace rel ".json" (processed_extension (input_path ++ rel))) = false ->
  processed_json_path (input_path ++ rel) input_path output_path
  = (output_path
     ++ Str.replace rel ".json" (processed_extension (input_path ++ rel)))%string
  /\ (Str.endswith rel ".json" = true ->
      Str.endswith (processed_json_path (input_path ++ rel) input_path output_path)
        (processed_extension (input_path ++ rel)) = true).
Proof.
  intros Hne Hrel Hjson Honce.
  assert (processed_json_path (input_path ++ rel) input_path output_path
          = (output_path
             ++ Str.replace rel ".json" (processed_extension (input_path ++ rel)))%string)
    as Hmap.
  { unfold processed_json_path.
    set (e := processed_extension (input_path ++ rel)) in *.
    assert (Str.replace (input_path ++ rel) ".json" e
            = (input_path ++ Str.replace rel ".json" e)%string) as ->.
    { unfold Str.replace. apply replace_scan_front.
      apply json_clear_of_front; assumption. }
    rewrite replace_prefix by exact Hne.
    rewrite (replace_absent _ _ _ Honce). reflexivity. }
  split; [exact Hmap|].
  intros Hend. rewrite Hmap.
  pose proof (replace_json_endswith rel
                (processed_extension (input_path ++ rel)) Hend) as Hr.
  destruct (endswith_inv _ _ Hr) as [t ->].
  rewrite <- append_assoc. apply endswith_app.
Qed.

Lemma processed_json_path_under_project_witness :
  processed_json_path "project/sounds/foo.json" "project" "/out"
  = "/out/sounds/foo.amsound"
  /\ (Str.endswith "/sounds/foo.json" ".json" = true ->
      Str.endswith (processed_json_path "project/sounds/foo.json" "project" "/out")
        ".amsound" = true).
Proof.
  apply (processed_json_path_under_project "project" "/out" "/sounds/foo.json");
    [discriminate|reflexivity..].
Defined.

(** X2: a path without [".json"] keeps its name: only the project path is
    rewritten, whatever the naming rules say. *)
Theorem processed_json_path_not_json (path input_path output_path : string) :
  Str.contains ".json" path = false ->
  processed_json_path path input_path output_path
  = Str.replace path input_path output_path.
Proof.
  intros Hp. unfold processed_json_path. rewrite (replace_absent _ _ _ Hp).
  reflexivity.
Qed.

Lemma processed_json_path_not_json_witness :
  processed_json_path "proj/sounds/readme.txt" "proj" "out"
  = Str.replace "proj/sounds/readme.txt" "proj" "out".
Proof. apply processed_json_path_not_json. reflexivity. Defined.

(** X3: building into the project directory itself (build path equal to the
    project path) changes nothing but the extension. *)
Theorem processed_json_path_in_place (path dir : string) :
  processed_json_path path dir dir
  = Str.replace path ".json" (processed_extension path).
Proof. unfold processed_json_path. apply replace_same. Qed.

(** X4: a path that contains [soundbanks] and ends neither in
    [config.json] nor in [buses.json] is given [.ambank], and when it ends
    with [".json"] the extension stage leaves a path ending in [.ambank]. *)
Theorem soundbank_files_get_ambank (path : string) :
  Str.endswith path "config.json" = false ->
  Str.endswith path "buses.json" = false ->
  Str.contains SOUNDBANKS_DIR_NAME path = true ->
  processed_extension path = ".ambank"
  /\ (Str.endswith path ".json" = true ->
      Str.endswith (Str.replace path ".json" (processed_extension path)) ".ambank"
      = true).
Proof.
  intros Hc Hb Hs.
  assert (processed_extension path = ".ambank") as ->.
  { unfold processed_extension. rewrite Hc, Hb, Hs. reflexivity. }
  split; [reflexivity|]. apply replace_json_endswith.
Qed.

Lemma soundbank_files_get_ambank_witness :
  processed_extension "proj/soundbanks/sounds/init.json" = ".ambank"
  /\ (Str.endswith "proj/soundbanks/sounds/init.json" ".json" = true ->
      Str.endswith
        (Str.replace "proj/soundbanks/sounds/init.json" ".json"
           (processed_extension "proj/soundbanks/sounds/init.json")) ".ambank"
      = true).
Proof.
  apply (soundbank_files_get_ambank "proj/soundbanks/sounds/init.json");
    reflexivity.
Defined.

End PathMapperMore.

(** ** More on the schema lookup *)

Section SchemaLookupMore.

(** X5: an absolute name is never looked up under the search paths:
    [os.path.join] drops the directory in front of it, so [find_in_paths]
    returns the name itself whether or not such a file exists. *)
Theorem find_in_paths_absolute (w : world) (name : string) (paths : list string) :
  Str.startswith name "/" = true ->
  find_in_paths w name paths = name.
Proof.
  intros Habs. induction paths as [|path paths IH]; [reflexivity|].
  cbn [find_in_paths]. unfold Path.join at 1 2. cbn [fold_left].
  unfold Path.join2. rewrite Habs, IH.
  destruct (isfile w name); reflexivity.
Qed.

Lemma find_in_paths_absolute_witness :
  find_in_paths Sample.fresh_project "/opt/sdk/sound_definition.bfbs" ["schemas"]
  = "/opt/sdk/sound_definition.bfbs".
Proof. apply find_in_paths_absolute. reflexivity. Defined.

(** X6: searching a concatenation of two lists of directories is searching
    the first list and, only when it holds no match, the second. *)
Theorem find_in_paths_app (w : world) (name : string) (front back : list string) :
  find_in_paths w name (front ++ back)%list
  = if existsb (fun path => isfile w (Path.join path [name])) front
    then find_in_paths w name front
    else find_in_paths w name back.
Proof.
  induction front as [|path front IH]; [reflexivity|].
  cbn [app find_in_paths existsb].
  destruct (isfile w (Path.join path [name])); [reflexivity|]. exact IH.
Qed.

End SchemaLookupMore.

(** ** More on the build loop *)

Section BuildMore.
Context `{Host}.

(** One pass of the build loop either starts nothing and keeps every
    existing entry of the file system, or starts exactly the compiler command
    of its unit, on a file system where the output directory exists. *)
Lemma build_file_step (options : CommandOptions) (schema json : string) (s : state) :
  (spawned (snd (build_file options schema json s)) = spawned s
   /\ forall p n, files (os s) !! p = Some n ->
                  files (os (snd (build_file options schema json s))) !! p = Some n)
  \/ exists e,
       spawned (snd (build_file options schema json s)) = (spawned s ++ [e])%list
       /\ argv e = flatc_command options schema json
       /\ path_exists (before e)
            (Path.dirname
               (processed_json_path json (project_path options) (build_path options)))
          = true.
Proof.
  rewrite build_file_run. cbn zeta.
  set (target := processed_json_path json (project_path options) (build_path options)).
  assert (forall w1,
             path_exists w1 (Path.dirname target) = true ->
             exists e,
               spawned (snd (run_subprocess (flatc_command options schema json)
                               {| os := w1; spawned := spawned s |}))
               = (spawned s ++ [e])%list
               /\ argv e = flatc_command options schema json
               /\ path_exists (before e) (Path.dirname target) = true) as Hrun.
  { intros w1 Hdir. rewrite run_subprocess_log. cbn [os spawned].
    eexists. split; [reflexivity|]. split; [reflexivity|exact Hdir]. }
  assert ((exists w1,
             (if path_exists (os s) (Path.dirname target)
              then Some (os s) else makedirs (Path.dirname target) (os s)) = Some w1
             /\ path_exists w1 (Path.dirname target) = true
             /\ (forall p n, files (os s) !! p = Some n -> files w1 !! p = Some n))
          \/ (if path_exists (os s) (Path.dirname target)
              then Some (os s) else makedirs (Path.dirname target) (os s)) = None)
    as [(w1 & -> & Hdir & Hkept)| ->].
  { destruct (path_exists (os s) (Path.dirname target)) eqn:Hd.
    - left. exists (os s). repeat split; auto.
    - destruct (makedirs (Path.dirname target) (os s)) as [w1|] eqn:Hmk.
      + left. exists w1. split; [reflexivity|].
        split; [eapply makedirs_creates, Hmk|].
        intros p n. eapply makedirs_keeps, Hmk.
      + right. reflexivity. }
  2:{ left. split; [reflexivity|]. intros p n Hp. exact Hp. }
  cbn zeta.
  destruct (needs_rebuild w1 json target) as [[|]|x].
  - right. apply Hrun, Hdir.
  - destruct (needs_rebuild w1 schema target) as [[|]|x].
    + right. apply Hrun, Hdir.
    + left. split; [reflexivity|exact Hkept].
    + left. split; [reflexivity|exact Hkept].
  - left. split; [reflexivity|exact Hkept].
Qed.

(** The build loop over any list of units: what it starts are the commands
    of a sub-sequence of the units, each on a file system where its output
    directory exists; and when it starts nothing every existing entry is
    kept. *)
Lemma build_loop_log (options : CommandOptions) (l : list (string * string * string))
    (s : state) :
  exists new started,
    spawned (snd (for_each l
                    (fun u => build_file options (fst (fst u)) (snd (fst u))) s))
    = (spawned s ++ new)%list
    /\ sublist started l
    /\ Forall2
         (fun e u =>
            argv e = flatc_command options (fst (fst u)) (snd (fst u))
            /\ path_exists (before e) (Path.dirname (unit_target options u)) = true)
         new started
    /\ (new = [] ->
        forall p n, files (os s) !! p = Some n ->
          files (os (snd (for_each l
                            (fun u => build_file options (fst (fst u)) (snd (fst u)))
                            s))) !! p = Some n).
Proof.
  revert s. induction l as [|u l IH]; intros s.
  - exists [], []. cbn [for_each ret snd]. rewrite app_nil_r.
    repeat split; [constructor|constructor|auto].
  - cbn [for_each]. unfold bind.
    pose proof (build_file_step options (fst (fst u)) (snd (fst u)) s) as Hstep.
    destruct (build_file options (fst (fst u)) (snd (fst u)) s) as [[[]|x] s1];
      cbn [snd] in *.
    + destruct (IH s1) as (new & started & Hlog & Hsub & Hall & Hkept).
      destruct Hstep as [[Hlog1 Hkept1]|(e & Hlog1 & Hargv & Hdir)].
      * exists new, started. rewrite Hlog, Hlog1.
        repeat split; [apply sublist_cons, Hsub|exact Hall|].
        intros Hnew p n Hp. apply Hkept; [exact Hnew|]. apply Hkept1, Hp.
      * exists (e :: new), (u :: started). rewrite Hlog, Hlog1, <- app_assoc.
        repeat split; [apply sublist_skip, Hsub|constructor; auto|discriminate].
    + destruct Hstep as [[Hlog1 Hkept1]|(e & Hlog1 & Hargv & Hdir)].
      * exists [], []. rewrite app_nil_r.
        repeat split; [exact Hlog1|apply sublist_nil_l|constructor|].
        intros _. exact Hkept1.
      * exists [e], [u].
        repeat split; [exact Hlog1|apply sublist_skip, sublist_nil_l| |discriminate].
        constructor; [split; assumption|constructor].
Qed.

(** X7: whatever a run of [generate_flatbuffers_binaries] returns, the
    processes it started are the [flatc] commands of a sub-sequence of the
    units of its plan, in plan order, and each was started on a file system
    where its output directory exists. *)
Theorem build_starts_planned_commands (options : CommandOptions) (s : state) :
  exists new started,
    spawned (snd (generate_flatbuffers_binaries options s))
    = (spawned s ++ new)%list
    /\ sublist started (conversion_plan (os s) options)
    /\ Forall2
         (fun e u =>
            argv e = flatc_command options (fst (fst u)) (snd (fst u))
            /\ path_exists (before e) (Path.dirname (snd u)) = true)
         new started.
Proof.
  rewrite generate_as_plan.
  destruct (build_loop_log options (conversion_plan (os s) options) s)
    as (new & started & Hlog & Hsub & Hall & _).
  exists new, started. split; [exact Hlog|]. split; [exact Hsub|].
  assert (Forall (fun u => In u (conversion_plan (os s) options)) started) as Hin.
  { apply List.Forall_forall. intros u Hu.
    apply list_elem_of_In. eapply elem_of_sublist; [|exact Hsub].
    apply list_elem_of_In, Hu. }
  clear Hsub Hlog. induction Hall as [|e u new started [Hargv Hdir] _ IH];
    [constructor|].
  apply Forall_cons in Hin as [Hu Hin].
  constructor; [|apply IH, Hin]. split; [exact Hargv|].
  destruct u as [[schema json] target].
  rewrite (plan_target _ _ _ _ _ Hu). exact Hdir.
Qed.

(** X10: a run that starts no process keeps every entry the file system
    had: all it can have done is create directories. *)
Theorem build_without_process_keeps_files (options : CommandOptions) (s : state) :
  spawned (snd (generate_flatbuffers_binaries options s)) = spawned s ->
  forall p n, files (os s) !! p = Some n ->
    files (os (snd (generate_flatbuffers_binaries options s))) !! p = Some n.
Proof.
  rewrite generate_as_plan.
  destruct (build_loop_log options (conversion_plan (os s) options) s)
    as (new & started & Hlog & _ & _ & Hkept).
  intros Hsame. apply Hkept.
  rewrite Hsame in Hlog.
  rewrite <- (app_nil_r (spawned s)) in Hlog at 1.
  apply app_inv_head in Hlog. symmetry. exact Hlog.
Qed.

End BuildMore.

Section BuildOutcomes.
Context `{Host}.

(** X8: when a run that began with an empty log returns normally, or
    raises an [OSError], every process it started exited with status 0: a
    process that fails always surfaces as a [BuildError]. *)
Theorem build_outcome_without_build_error (options : CommandOptions)
    (s s' : state) (r : result unit) :
  spawned s = [] ->
  generate_flatbuffers_binaries options s = (r, s') ->
  (r = Ok tt \/ exists f, r = Raise (OSError f)) ->
  Forall (fun e => exists w', outcome e = Exited 0 w') (spawned s').
Proof.
  intros Hlog Hrun Hr.
  assert (fail_fast r s') as [_ Hff].
  { replace r with (fst (generate_flatbuffers_binaries options s))
      by (rewrite Hrun; reflexivity).
    replace s' with (snd (generate_flatbuffers_binaries options s))
      by (rewrite Hrun; reflexivity).
    rewrite generate_as_plan.
    apply for_each_fail_fast; [|rewrite Hlog; constructor..].
    intros u s0. apply build_file_fail_fast. }
  assert (Forall (fun e => ~ failed e) (spawned s')) as Hok.
  { destruct Hr as [->|[f ->]]; [exact Hff|].
    destruct Hff as [[Hok _]|(pre & e & _ & _ & _ & Hx & _)]; [exact Hok|].
    unfold reported in Hx. destruct (outcome e); discriminate. }
  eapply List.Forall_impl; [|exact Hok].
  intros e He. unfold failed in He.
  destruct (outcome e) as [msg|rc w']; [destruct (He I)|].
  exists w'. f_equal. lia.
Qed.

(** X9: on a unit whose target is a regular file in an existing
    directory, a data file newer than the target starts the compiler without
    the schema being looked at, whereas with a data file no newer than the
    target a schema path that does not exist makes the pass raise an
    [OSError] on the schema, before any process is started. *)
Theorem schema_consulted_only_when_data_is_fresh (options : CommandOptions)
    (schema json : string) (s : state) (mt mj : Z) :
  path_exists (os s)
    (Path.dirname
       (processed_json_path json (project_path options) (build_path options)))
  = true ->
  files (os s)
    !! processed_json_path json (project_path options) (build_path options)
  = Some (File mt) ->
  getmtime (os s) json = Some mj ->
  (mt < mj ->
   build_file options schema json s
   = run_subprocess (flatc_command options schema json) s)
  /\ (mj <= mt -> getmtime (os s) schema = None ->
      build_file options schema json s = (Raise (OSError schema), s)).
Proof.
  intros Hdir Ht Hj. rewrite build_file_run. cbn zeta. rewrite Hdir, state_eta.
  assert (isfile (os s)
            (processed_json_path json (project_path options) (build_path options))
          = true) as Hfile by (apply isfile_lookup; eauto).
  assert (getmtime (os s)
            (processed_json_path json (project_path options) (build_path options))
          = Some mt) as Hmt by (unfold getmtime; rewrite Ht; reflexivity).
  split.
  - intros Hlt. unfold needs_rebuild at 1. rewrite Hfile, Hj, Hmt. cbn [negb].
    apply Z.ltb_lt in Hlt. rewrite Hlt. reflexivity.
  - intros Hle Hs. unfold needs_rebuild. rewrite Hfile, Hj, Hmt, Hs. cbn [negb].
    apply Z.ltb_ge in Hle. rewrite Hle. reflexivity.
Qed.

End BuildOutcomes.

Section BuildOutcomesAtWork.

Lemma build_outcome_without_build_error_witness :
  Forall (fun e => exists w', outcome e = Exited 0 w')
    (spawned (snd (generate_flatbuffers_binaries (H := Sample.host) Sample.options
                     (Sample.start Sample.fresh_project)))).
Proof.
  apply (build_outcome_without_build_error (H := Sample.host) Sample.options
           (Sample.start Sample.fresh_project) _ (Ok tt)).
  - reflexivity.
  - vm_compute. reflexivity.
  - left. reflexivity.
Defined.

Lemma schema_consulted_only_when_data_is_fresh_witness :
  build_file (H := Sample.host) Sample.options "sound_definition.bfbs"
    "proj/sounds/a.json" (Sample.start Sample.built_project)
  = (Raise (OSError "sound_definition.bfbs"), Sample.start Sample.built_project).
Proof.
  apply (schema_consulted_only_when_data_is_fresh (H := Sample.host) Sample.options
           "sound_definition.bfbs" "proj/sounds/a.json"
           (Sample.start Sample.built_project) 20 10).
  - vm_compute. reflexivity.
  - vm_compute. reflexivity.
  - vm_compute. reflexivity.
  - lia.
  - vm_compute. reflexivity.
Defined.

Lemma build_without_process_keeps_files_witness :
  files (os (snd (generate_flatbuffers_binaries (H := Sample.host) Sample.options
                    (Sample.start Sample.built_project))))
    !! "proj/sounds/a.json" = Some (File 10).
Proof.
  apply (build_without_process_keeps_files (H := Sample.host)).
  - vm_compute. reflexivity.
  - vm_compute. reflexivity.
Defined.

End BuildOutcomesAtWork.

(** ** More on clean *)

Section CleanMore.
Context `{Host}.

Lemma clean_loop_idle (options : CommandOptions) (l : list (string * string * string))
    (s : state) :
  (forall u, In u l -> isfile (os s) (unit_target options u) = false) ->
  for_each l (fun u => clean_file options (snd (fst u))) s = (Ok tt, s).
Proof.
  induction l as [|u l IH]; intros Hgone; [reflexivity|].
  cbn [for_each]. unfold bind. rewrite clean_file_run.
  fold (unit_target options u). rewrite (Hgone u) by (left; reflexivity).
  apply IH. intros v Hv. apply Hgone. right. exact Hv.
Qed.

(** After clean, no target of the plan is a regular file. *)
Lemma clean_leaves_no_target (options : CommandOptions) (s : state) :
  forall u, In u (conversion_plan (os s) options) ->
    isfile (os (snd (clean_flatbuffers_binaries options s))) (unit_target options u)
    = false.
Proof.
  intros u Hu. rewrite clean_as_plan.
  destruct (clean_loop options (conversion_plan (os s) options) s)
    as (s' & -> & _ & _ & Hfiles).
  cbn [snd]. unfold isfile at 1. rewrite Hfiles.
  assert (existsb (String.eqb (unit_target options u))
            (map (fun u => processed_json_path (snd (fst u))
                             (project_path options) (build_path options))
               (conversion_plan (os s) options)) = true) as ->.
  { apply existsb_exists. exists (unit_target options u).
    split; [|apply String.eqb_refl].
    apply in_map_iff. exists u. split; [reflexivity|exact Hu]. }
  rewrite andb_true_r.
  destruct (isfile (os s) (unit_target options u)) eqn:Hfile; [reflexivity|].
  unfold isfile in Hfile. exact Hfile.
Qed.

(** X11: cleaning twice is cleaning once: when the second run lists the
    same units, it returns normally and leaves the state as the first run
    left it. *)
Theorem clean_twice (options : CommandOptions) (s : state) :
  conversion_plan (os (snd (clean_flatbuffers_binaries options s))) options
  = conversion_plan (os s) options ->
  clean_flatbuffers_binaries options (snd (clean_flatbuffers_binaries options s))
  = (Ok tt, snd (clean_flatbuffers_binaries options s)).
Proof.
  intros Hplan. rewrite (clean_as_plan options (snd _)), Hplan.
  apply clean_loop_idle. apply clean_leaves_no_target.
Qed.

(** X12: after clean every unit of the plan is stale: [needs_rebuild]
    answers [True] for its data file and for its schema against its target,
    whether or not these exist. *)
Theorem clean_makes_every_unit_stale (options : CommandOptions) (s : state)
    (schema json target : string) :
  In (schema, json, target) (conversion_plan (os s) options) ->
  needs_rebuild (os (snd (clean_flatbuffers_binaries options s))) json target
  = Ok true
  /\ needs_rebuild (os (snd (clean_flatbuffers_binaries options s))) schema target
     = Ok true.
Proof.
  intros Hu.
  pose proof (clean_leaves_no_target options s _ Hu) as Hgone.
  unfold unit_target in Hgone. cbn [fst snd] in Hgone.
  rewrite <- (plan_target _ _ _ _ _ Hu) in Hgone.
  unfold needs_rebuild. rewrite Hgone. split; reflexivity.
Qed.

(** X13: clean only removes: every entry of the file system it leaves was
    there before, unchanged, and the log of processes is as it was. *)
Theorem clean_only_removes (options : CommandOptions) (s : state) :
  spawned (snd (clean_flatbuffers_binaries options s)) = spawned s
  /\ forall p n,
       files (os (snd (clean_flatbuffers_binaries options s))) !! p = Some n ->
       files (os s) !! p = Some n.
Proof.
  rewrite clean_as_plan.
  destruct (clean_loop options (conversion_plan (os s) options) s)
    as (s' & -> & Hlog & _ & Hfiles).
  cbn [snd]. split; [exact Hlog|].
  intros p n. rewrite Hfiles.
  destruct (isfile (os s) p && existsb _ _); [discriminate|auto].
Qed.

End CleanMore.

Section CleanAtWork.

Lemma clean_twice_witness :
  clean_flatbuffers_binaries (H := Sample.host) Sample.options
    (snd (clean_flatbuffers_binaries (H := Sample.host) Sample.options
            (Sample.start Sample.built_project)))
  = (Ok tt,
     snd (clean_flatbuffers_binaries (H := Sample.host) Sample.options
            (Sample.start Sample.built_project))).
Proof.
  apply (clean_twice (H := Sample.host)). vm_compute. reflexivity.
Defined.

Lemma clean_makes_every_unit_stale_witness :
  needs_rebuild
    (os (snd (clean_flatbuffers_binaries (H := Sample.host) Sample.options
                (Sample.start Sample.built_project))))
    "proj/sounds/a.json" "out/sounds/a.amsound" = Ok true
  /\ needs_rebuild
       (os (snd (clean_flatbuffers_binaries (H := Sample.host) Sample.options
                   (Sample.start Sample.built_project))))
       "schemas/sound_definition.bfbs" "out/sounds/a.amsound" = Ok true.
Proof.
  apply (clean_makes_every_unit_stale (H := Sample.host)).
  vm_compute. left. reflexivity.
Defined.

End CleanAtWork.

(** ** The command line *)

Section CommandLineFacts.
Import Cli.

(** One turn of the option loop, attribute by attribute: each option only
    touches its own flag or attribute. *)
Lemma scan_option_fields (acc : scan) (oa : string * string) :
  scan_option acc oa
  = {| no_logo := no_logo acc || is_no_logo (fst oa);
       show_help := show_help acc || is_help (fst oa);
       show_version := show_version acc || is_version (fst oa);
       line :=
         {| cl_project_path :=
              if is_project (fst oa) then Some (snd oa)
              else cl_project_path (line acc);
            cl_build_path :=
              if is_build (fst oa) then Some (snd oa)
              else cl_build_path (line acc);
            cl_flatc_path :=
              if is_flatc (fst oa) then snd oa else cl_flatc_path (line acc);
            cl_schema_path :=
              if is_schema (fst oa) then snd oa else cl_schema_path (line acc) |} |}.
Proof.
  destruct oa as [opt arg], acc as [[|] [|] [|] [p b f sc]];
    unfold scan_option, is_no_logo, is_help, is_version, is_project, is_build,
      is_flatc, is_schema;
    cbn [fst snd no_logo show_help show_version line cl_project_path
         cl_build_path cl_flatc_path cl_schema_path];
    repeat match goal with
           | |- context [String.eqb opt ?k] =>
               let E := fresh "E" in
               destruct (String.eqb opt k) eqn:E;
               [apply String.eqb_eq in E; subst opt; reflexivity|]
           end;
    reflexivity.
Qed.

(** The whole loop: a flag is set when one of its options occurs, an
    attribute holds the argument of the last of its options. *)
Lemma scan_fields (opts : list (string * string)) (acc : scan) :
  fold_left scan_option opts acc
  = {| no_logo := no_logo acc || given is_no_logo opts;
       show_help := show_help acc || given is_help opts;
       show_version := show_version acc || given is_version opts;
       line :=
         {| cl_project_path :=
              last_arg is_project Some opts (cl_project_path (line acc));
            cl_build_path :=
              last_arg is_build Some opts (cl_build_path (line acc));
            cl_flatc_path :=
              last_arg is_flatc (fun a => a) opts (cl_flatc_path (line acc));
            cl_schema_path :=
              last_arg is_schema (fun a => a) opts (cl_schema_path (line acc)) |} |}.
Proof.
  revert acc. induction opts as [|oa opts IH]; intros acc.
  - destruct acc as [nl sh sv [p b f sc]]. unfold given, last_arg. cbn.
    rewrite !orb_false_r. reflexivity.
  - cbn [fold_left]. rewrite IH, scan_option_fields.
    unfold given, last_arg.
    cbn [existsb fold_left no_logo show_help show_version line cl_project_path
         cl_build_path cl_flatc_path cl_schema_path].
    rewrite !orb_assoc. reflexivity.
Qed.

(** X16: the constructor, read off the option list: help comes first,
    then the version, then the check for an empty project or build path;
    otherwise the object holds, for each attribute, the argument of the last
    option that names it (the class default when there is none), the
    compiler path being adjusted on Windows only. *)
Theorem constructor_by_last_arguments (FLATC SDK_PATH platform : string)
    (opts : list (string * string)) (script_name script_version : string) :
  CommandOptions_init FLATC SDK_PATH platform opts script_name script_version
  = if given is_help opts
    then (print_help (given is_no_logo opts) script_name, SystemExit 0)
    else if given is_version opts
    then ([(script_name ++ ".py " ++ script_version)%string], SystemExit 0)
    else if match last_arg is_project Some opts None with
            | Some p => String.eqb p ""
            | None => false
            end
            || match last_arg is_build Some opts None with
               | Some b => String.eqb b ""
               | None => false
               end
    then (print_help (given is_no_logo opts) script_name, SystemExit 1)
    else
      ([],
       Constructed
         {| cl_project_path := last_arg is_project Some opts None;
            cl_build_path := last_arg is_build Some opts None;
            cl_flatc_path :=
              if Str.startswith platform "win"
              then windows_flatc (last_arg is_flatc (fun a => a) opts FLATC)
              else last_arg is_flatc (fun a => a) opts FLATC;
            cl_schema_path :=
              last_arg is_schema (fun a => a) opts
                (Path.join SDK_PATH ["schemas"]) |}).
Proof.
  unfold CommandOptions_init. rewrite scan_fields.
  cbn [no_logo show_help show_version line cl_project_path cl_build_path
       cl_flatc_path cl_schema_path class_defaults orb].
  destruct (given is_help opts); [reflexivity|].
  destruct (given is_version opts); [reflexivity|].
  destruct (_ || _); [reflexivity|].
  destruct (Str.startswith platform "win"); reflexivity.
Qed.

(** X14: as soon as [-h] or [--help] occurs among the options the
    constructor prints the help and exits with status 0, whatever else is
    given; the header is left out exactly when [--no-logo] occurs. *)
Theorem help_wins (FLATC SDK_PATH platform : string)
    (opts : list (string * string)) (script_name script_version : string) :
  given is_help opts = true ->
  CommandOptions_init FLATC SDK_PATH platform opts script_name script_version
  = (print_help (given is_no_logo opts) script_name, SystemExit 0).
Proof.
  intros Hh. rewrite constructor_by_last_arguments, Hh. reflexivity.
Qed.

(** X15: without a help option, [-v] or [--version] makes the constructor
    print [<script_name>.py <script_version>] and exit with status 0, even
    when the project or build path given is empty. *)
Theorem version_before_validation (FLATC SDK_PATH platform : string)
    (opts : list (string * string)) (script_name script_version : string) :
  given is_help opts = false ->
  given is_version opts = true ->
  CommandOptions_init FLATC SDK_PATH platform opts script_name script_version
  = ([(script_name ++ ".py " ++ script_version)%string], SystemExit 0).
Proof.
  intros Hh Hv. rewrite constructor_by_last_arguments, Hh, Hv. reflexivity.
Qed.

Lemma last_arg_not_given {A} (test : string -> bool) (inject : string -> A)
    (opts : list (string * string)) (default : A) :
  given test opts = false -> last_arg test inject opts default = default.
Proof.
  unfold given, last_arg. revert default.
  induction opts as [|oa opts IH]; intros default Hg; [reflexivity|].
  cbn [existsb] in Hg. apply orb_false_iff in Hg as [Hoa Hg].
  cbn [fold_left]. rewrite Hoa. apply IH, Hg.
Qed.

Lemma last_arg_last {A} (test : string -> bool) (inject : string -> A)
    (front back : list (string * string)) (opt arg : string) (default : A) :
  test opt = true -> given test back = false ->
  last_arg test inject (front ++ (opt, arg) :: back)%list default = inject arg.
Proof.
  intros Ht Hback. unfold last_arg. rewrite fold_left_app. cbn [fold_left fst snd].
  rewrite Ht. apply (last_arg_not_given test inject back (inject arg) Hback).
Qed.

(** X17: the check only rejects a path given as the empty string: when no
    option names the project path or the build path (and none asks for help or
    the version), the constructor returns an object whose two paths are
    [None]. *)
Theorem omitted_paths_are_accepted (FLATC SDK_PATH platform : string)
    (opts : list (string * string)) (script_name script_version : string) :
  given is_help opts = false ->
  given is_version opts = false ->
  given is_project opts = false ->
  given is_build opts = false ->
  exists o,
    CommandOptions_init FLATC SDK_PATH platform opts script_name script_version
    = ([], Constructed o)
    /\ cl_project_path o = None
    /\ cl_build_path o = None.
Proof.
  intros Hh Hv Hp Hb. rewrite constructor_by_last_arguments, Hh, Hv.
  rewrite (last_arg_not_given is_project Some opts None Hp),
    (last_arg_not_given is_build Some opts None Hb).
  cbn [orb]. eexists. split; [reflexivity|]. split; reflexivity.
Qed.

(** X19: a project path given as the empty string by the last option that
    names it makes the constructor print the help and exit with status 1
    (when neither help nor version is asked for). *)
Theorem empty_project_path_is_rejected (FLATC SDK_PATH platform : string)
    (front back : list (string * string)) (opt : string)
    (script_name script_version : string) :
  given is_help (front ++ (opt, "") :: back)%list = false ->
  given is_version (front ++ (opt, "") :: back)%list = false ->
  is_project opt = true ->
  given is_project back = false ->
  CommandOptions_init FLATC SDK_PATH platform (front ++ (opt, "") :: back)%list
    script_name script_version
  = (print_help (given is_no_logo (front ++ (opt, "") :: back)%list) script_name,
     SystemExit 1).
Proof.
  intros Hh Hv Hp Hback. rewrite constructor_by_last_arguments, Hh, Hv.
  rewrite (last_arg_last is_project Some front back opt "" None Hp Hback).
  reflexivity.
Qed.

Lemma contains_char_cons (x c : ascii) (s : string) :
  Str.contains (String x "") (String c s)
  = Ascii.eqb x c || Str.contains (String x "") s.
Proof. cbn [Str.contains Str.startswith]. rewrite andb_true_r. reflexivity. Qed.

Lemma contains_char_app (x : ascii) (a b : string) :
  Str.contains (String x "") (a ++ b)
  = Str.contains (String x "") a || Str.contains (String x "") b.
Proof.
  induction a as [|c a IH]; [reflexivity|].
  rewrite append_cons, !contains_char_cons, IH, orb_assoc. reflexivity.
Qed.

Lemma replace_slash_clear (s : string) :
  Str.contains "/" (Str.replace s "/" "\") = false.
Proof.
  unfold Str.replace. induction s as [|c s IH]; [reflexivity|].
  rewrite replace_scan_cons. cbn [Str.startswith String.length Nat.pred].
  rewrite andb_true_r. destruct (Ascii.eqb "/" c) eqn:Hc.
  - rewrite append_cons, append_nil_l, contains_char_cons. exact IH.
  - rewrite contains_char_cons, Hc. exact IH.
Qed.

Lemma lower_app (a b : string) : lower (a ++ b) = (lower a ++ lower b)%string.
Proof.
  induction a as [|c a IH]; [reflexivity|].
  rewrite append_cons. cbn [lower]. rewrite IH. reflexivity.
Qed.

(** The adjusted compiler path has no forward slash and ends in [.exe]
    up to the case of the letters; adjusting it again changes nothing. *)
Lemma windows_flatc_shape (flatc : string) :
  Str.contains "/" (windows_flatc flatc) = false
  /\ Str.endswith (lower (windows_flatc flatc)) ".exe" = true
  /\ windows_flatc (windows_flatc flatc) = windows_flatc flatc.
Proof.
  assert (Str.contains "/" (windows_flatc flatc) = false
          /\ Str.endswith (lower (windows_flatc flatc)) ".exe" = true)
    as [Hslash Hexe].
  { unfold windows_flatc.
    destruct (Str.endswith (lower (Str.replace flatc "/" "\")) ".exe") eqn:He;
      cbn [negb].
    - split; [apply replace_slash_clear|exact He].
    - split.
      + rewrite contains_char_app, replace_slash_clear. reflexivity.
      + rewrite lower_app. apply endswith_app. }
  split; [exact Hslash|]. split; [exact Hexe|].
  unfold windows_flatc at 1.
  rewrite (replace_absent _ _ _ Hslash), Hexe. reflexivity.
Qed.

(** X18: when [sys.platform] starts with ['win'], the compiler path of a
    constructed object has no forward slash and ends in [.exe] up to the case
    of the letters, and adjusting it again would change nothing. *)
Theorem windows_compiler_path (FLATC SDK_PATH platform : string)
    (opts : list (string * string)) (script_name script_version : string)
    (printed : list string) (o : CommandLine) :
  Str.startswith platform "win" = true ->
  CommandOptions_init FLATC SDK_PATH platform opts script_name script_version
  = (printed, Constructed o) ->
  Str.contains "/" (cl_flatc_path o) = false
  /\ Str.endswith (lower (cl_flatc_path o)) ".exe" = true
  /\ windows_flatc (cl_flatc_path o) = cl_flatc_path o.
Proof.
  intros Hwin. rewrite constructor_by_last_arguments, Hwin.
  destruct (given is_help opts); [discriminate|].
  destruct (given is_version opts); [discriminate|].
  destruct (_ || _); [discriminate|].
  intros [= _ <-]. cbn [cl_flatc_path]. apply windows_flatc_shape.
Qed.

End CommandLineFacts.

Section CommandLineAtWork.
Import Cli.

Lemma help_wins_witness :
  CommandOptions_init "flatc" "/sdk" "linux"
    [("-p", ""); ("-v", ""); ("--help", ""); ("--no-logo", "")]
    "build_project" "1.0"
  = (print_help true "build_project", SystemExit 0).
Proof. apply help_wins. reflexivity. Defined.

Lemma version_before_validation_witness :
  CommandOptions_init "flatc" "/sdk" "linux" [("-p", ""); ("-v", "")]
    "build_project" "1.0"
  = (["build_project.py 1.0"], SystemExit 0).
Proof. apply version_before_validation; reflexivity. Defined.

Lemma omitted_paths_are_accepted_witness :
  exists o,
    CommandOptions_init "flatc" "/sdk" "linux" [("-s", "schemas")]
      "build_project" "1.0"
    = ([], Constructed o)
    /\ cl_project_path o = None
    /\ cl_build_path o = None.
Proof. apply omitted_paths_are_accepted; reflexivity. Defined.

Lemma empty_project_path_is_rejected_witness :
  CommandOptions_init "flatc" "/sdk" "linux"
    ([("-p", "proj")] ++ ("--project-path", "") :: [("-b", "out")])
    "build_project" "1.0"
  = (print_help
       (given is_no_logo
          ([("-p", "proj")] ++ ("--project-path", "") :: [("-b", "out")]))
       "build_project",
     SystemExit 1).
Proof. apply empty_project_path_is_rejected; reflexivity. Defined.

Lemma windows_compiler_path_witness :
  Str.contains "/" "C:\sdk\bin\flatc.exe" = false
  /\ Str.endswith (lower "C:\sdk\bin\flatc.exe") ".exe" = true
  /\ windows_flatc "C:\sdk\bin\flatc.exe" = "C:\sdk\bin\flatc.exe".
Proof.
  apply (windows_compiler_path "flatc" "/sdk" "win32"
           [("-p", "proj"); ("-b", "out"); ("-f", "C:/sdk/bin/flatc")]
           "build_project" "1.0" []
           {| cl_project_path := Some "proj"; cl_build_path := Some "out";
              cl_flatc_path := "C:\sdk\bin\flatc.exe";
              cl_schema_path := "/sdk/schemas" |});
    reflexivity.
Defined.

End CommandLineAtWork.

(** ** A touched source *)

Section TouchedSource.
Context `{Host}.

(** X20: on a file system where every unit of the plan is up to date but
    one, whose data file is newer than its target, a build starts exactly one
    process, the compiler command of that unit (targets are assumed not to be
    inputs, and a compiler that exits with 0 to have written its target,
    stamped no earlier than the files present). *)
Theorem touched_source_is_rebuilt_once (options : CommandOptions) (s : state)
    (front back : list (string * string * string)) (u : string * string * string)
    (mt mj : Z) :
  conversion_plan (os s) options = (front ++ u :: back)%list ->
  (forall v v', In v (front ++ u :: back)%list -> In v' (front ++ u :: back)%list ->
      unit_target options v <> snd (fst v')
      /\ unit_target options v <> fst (fst v')) ->
  (forall v, In v (front ++ back)%list -> up_to_date options (os s) v) ->
  path_exists (os s) (Path.dirname (unit_target options u)) = true ->
  files (os s) !! unit_target options u = Some (File mt) ->
  getmtime (os s) (snd (fst u)) = Some mj ->
  mt < mj ->
  (forall w',
      popen (flatc_command options (fst (fst u)) (snd (fst u))) (os s) = Exited 0 w' ->
      exists m,
        files w' = <[unit_target options u := File m]> (files (os s))
        /\ forall p n, files (os s) !! p = Some n -> node_mtime n <= m) ->
  map argv (spawned (snd (generate_flatbuffers_binaries options s)))
  = (map argv (spawned s)
     ++ [flatc_command options (fst (fst u)) (snd (fst u))])%list.
Proof.
  intros Hplan Hapart Hfresh Hdir Ht Hj Hlt Hcompiler.
  rewrite generate_as_plan, Hplan, for_each_app.
  rewrite build_loop_idle
    by (intros v Hv; apply Hfresh, in_or_app; left; exact Hv).
  cbn [for_each]. unfold bind at 1.
  assert (build_file options (fst (fst u)) (snd (fst u)) s
          = run_subprocess (flatc_command options (fst (fst u)) (snd (fst u))) s)
    as ->.
  { rewrite build_file_run. cbn zeta. fold (unit_target options u).
    rewrite Hdir, state_eta. unfold needs_rebuild, isfile, getmtime in *.
    rewrite Ht, Hj. cbn. apply Z.ltb_lt in Hlt. rewrite Hlt. reflexivity. }
  pose proof (run_subprocess_log
                (flatc_command options (fst (fst u)) (snd (fst u))) s) as Hlog.
  destruct (run_subprocess (flatc_command options (fst (fst u)) (snd (fst u))) s)
    as [[[]|x] s1] eqn:Hrun; cbn [snd] in *.
  2:{ rewrite Hlog, map_app. reflexivity. }
  assert (for_each back
            (fun u0 => build_file options (fst (fst u0)) (snd (fst u0))) s1
          = (Ok tt, s1)) as ->.
  { apply build_loop_idle. intros v Hv.
    unfold run_subprocess in Hrun.
    destruct (popen _ (os s)) as [msg|rc w'] eqn:Hp; [discriminate|].
    destruct (rc =? 0) eqn:Hrc; [|discriminate].
    apply Z.eqb_eq in Hrc. subst rc. injection Hrun as <-. cbn [os].
    destruct (Hcompiler w' eq_refl) as (m & Hw' & Hm).
    eapply (up_to_date_written options (front ++ u :: back)%list Hapart
              (os s) w' u v m); try eassumption.
    - apply in_or_app. right. left. reflexivity.
    - apply in_or_app. right. right. exact Hv.
    - apply Hfresh, in_or_app. right. exact Hv. }
  cbn [snd]. rewrite Hlog, map_app. reflexivity.
Qed.

End TouchedSource.

Section TouchedSourceAtWork.

(** The built project with its data file modified after the build. *)
Lemma touched_source_is_rebuilt_once_witness :
  map argv
    (spawned
       (snd (generate_flatbuffers_binaries (H := Sample.host) Sample.options
               (Sample.start
                  {| files := <["proj/sounds/a.json" := File 30]>
                                (files Sample.built_project);
                     now := 31 |}))))
  = [flatc_command Sample.options "schemas/sound_definition.bfbs"
       "proj/sounds/a.json"].
Proof.
  apply (touched_source_is_rebuilt_once (H := Sample.host) Sample.options
           (Sample.start
              {| files := <["proj/sounds/a.json" := File 30]>
                            (files Sample.built_project);
                 now := 31 |})
           []
           [] ("schemas/sound_definition.bfbs", "proj/sounds/a.json",
               "out/sounds/a.amsound") 20 30).
  - vm_compute. reflexivity.
  - intros v v' [<-|[]] [<-|[]]. split; discriminate.
  - intros v [].
  - vm_compute. reflexivity.
  - vm_compute. reflexivity.
  - vm_compute. reflexivity.
  - lia.
  - intros w' Hp. eexists. split.
    + exact (compiler_exit_0 _ _ _ _ _ _ Hp).
    + intros p n. apply latest_ge.
Defined.

End TouchedSourceAtWork.

(** ** The file name of a target *)

Section FileName.

Lemma head_part_empty (p : string) :
  String.eqb (Path.head_part p) "" = negb (Str.contains "/" p).
Proof.
  induction p as [|c p IH]; [reflexivity|].
  rewrite contains_char_cons. cbn [Path.head_part]. rewrite IH.
  destruct (Str.contains "/" p); cbn [negb].
  - rewrite orb_true_r. reflexivity.
  - rewrite orb_false_r.
    destruct (Ascii.eqb_spec c "/") as [->|Hc].
    + reflexivity.
    + destruct (Ascii.eqb_spec "/" c) as [<-|_]; [congruence|reflexivity].
Qed.

(** A path is its head, up to the last separator, followed by its base
    name. *)
Lemma head_basename (p : string) :
  (Path.head_part p ++ os_path_basename p)%string = p.
Proof.
  induction p as [|c p IH]; [reflexivity|].
  cbn [Path.head_part os_path_basename]. rewrite head_part_empty.
  destruct (Str.contains "/" p) eqn:Hp; cbn [negb].
  - rewrite append_cons, IH. reflexivity.
  - destruct (Ascii.eqb_spec c "/") as [->|Hc]; reflexivity.
Qed.

Lemma basename_no_separator (p : string) :
  Str.contains "/" (os_path_basename p) = false.
Proof.
  induction p as [|c p IH]; [reflexivity|].
  cbn [os_path_basename].
  destruct (Str.contains "/" p) eqn:Hp; [exact IH|].
  destruct (Ascii.eqb_spec c "/") as [->|Hc]; [exact Hp|].
  rewrite contains_char_cons, Hp, orb_false_r.
  destruct (Ascii.eqb_spec "/" c) as [<-|_]; [congruence|reflexivity].
Qed.

Lemma head_part_shape (p : string) :
  Path.head_part p = "" \/ exists g, Path.head_part p = (g ++ "/")%string.
Proof.
  induction p as [|c p IH]; [left; reflexivity|].
  cbn [Path.head_part].
  destruct (String.eqb_spec (Path.head_part p) "") as [He|Hne]; cbn [negb].
  - destruct (Ascii.eqb c "/"); [right; exists ""; reflexivity|left; reflexivity].
  - right. destruct IH as [He|[g Hg]]; [congruence|].
    exists (String c g). rewrite Hg. reflexivity.
Qed.

Lemma rstrip_slash_snoc (g : string) :
  Path.rstrip_slash (g ++ "/") = Path.rstrip_slash g.
Proof.
  induction g as [|c g IH]; [reflexivity|].
  rewrite append_cons. cbn [Path.rstrip_slash]. rewrite IH. reflexivity.
Qed.

Lemma rstrip_slash_id (g : string) :
  Str.endswith g "/" = false -> Path.rstrip_slash g = g.
Proof.
  induction g as [|c g IH]; [reflexivity|].
  cbn [Str.endswith]. intros Hg. apply orb_false_iff in Hg as [Hhere Hg].
  cbn [Path.rstrip_slash]. rewrite (IH Hg).
  destruct (String.eqb_spec g "") as [->|Hne]; cbn [andb]; [|reflexivity].
  destruct (Ascii.eqb_spec c "/") as [->|Hc]; [discriminate|reflexivity].
Qed.

(** X21: the file name of a target holds no separator, the target is its
    head followed by that name, and when the target has no doubled separator
    the directory handed to the compiler joined with the file name is the
    target again. *)
Theorem processed_json_filename_in_target (path input_path output_path : string) :
  Str.contains "/" (processed_json_filename path input_path output_path) = false
  /\ processed_json_path path input_path output_path
     = (Path.head_part (processed_json_path path input_path output_path)
        ++ processed_json_filename path input_path output_path)%string
  /\ (Str.contains "//" (processed_json_path path input_path output_path) = false ->
      Path.join
        (Path.dirname (processed_json_path path input_path output_path))
        [processed_json_filename path input_path output_path]
      = processed_json_path path input_path output_path).
Proof.
  unfold processed_json_filename.
  generalize (processed_json_path path input_path output_path). intros t.
  split; [apply basename_no_separator|].
  split; [symmetry; apply head_basename|].
  intros Hdouble.
  pose proof (head_basename t) as Hsplit.
  pose proof (basename_no_separator t) as Hbase.
  assert (Str.startswith (os_path_basename t) "/" = false) as Hrel.
  { destruct (Str.startswith (os_path_basename t) "/") eqn:Hs; [|reflexivity].
    rewrite (contains_startswith _ _ Hs) in Hbase. discriminate. }
  unfold Path.join, Path.dirname. cbn [fold_left]. unfold Path.join2. rewrite Hrel.
  destruct (head_part_shape t) as [He|[g Hg]].
  - rewrite He in *. cbn [Path.rstrip_slash].
    rewrite String.eqb_refl. cbn [orb]. exact Hsplit.
  - rewrite Hg in *. rewrite rstrip_slash_snoc.
    assert (Str.endswith g "/" = false) as Hg'.
    { destruct (Str.endswith g "/") eqn:Hend; [|reflexivity].
      destruct (endswith_inv _ _ Hend) as [g' ->].
      rewrite <- Hsplit in Hdouble.
      rewrite !append_assoc in Hdouble.
      change ("/" ++ "/" ++ os_path_basename t)%string
        with ("//" ++ os_path_basename t)%string in Hdouble.
      rewrite contains_app in Hdouble. discriminate. }
    rewrite (rstrip_slash_id g Hg').
    destruct (String.eqb_spec g "") as [->|Hne].
    + rewrite append_nil_l, endswith_refl, orb_true_r. exact Hsplit.
    + rewrite Hg'. cbn [orb].
      destruct (String.eqb_spec g "") as [->|_]; [congruence|].
      rewrite <- append_assoc. exact Hsplit.
Qed.

Lemma processed_json_filename_in_target_witness :
  Path.join (Path.dirname (processed_json_path "proj/sounds/a.json" "proj" "out"))
    [processed_json_filename "proj/sounds/a.json" "proj" "out"]
  = processed_json_path "proj/sounds/a.json" "proj" "out".
Proof.
  apply (processed_json_filename_in_target "proj/sounds/a.json" "proj" "out").
  reflexivity.
Defined.

End FileName.

(** ** A full rebuild *)

Section FullRebuild.
Context `{Host}.

(** The build loop over units whose targets are distinct and none of
    which is a regular file: when it returns normally it has started the
    command of every unit, in order. *)
Lemma build_loop_all (options : CommandOptions)
    (l : list (string * string * string)) (s s' : state) :
  List.NoDup (map (unit_target options) l) ->
  (forall u, In u l -> isfile (os s) (unit_target options u) = false) ->
  (forall u w w', In u l ->
      popen (flatc_command options (fst (fst u)) (snd (fst u))) w = Exited 0 w' ->
      exists m, files w' = <[unit_target options u := File m]> (files w)) ->
  for_each l (fun u => build_file options (fst (fst u)) (snd (fst u))) s
  = (Ok tt, s') ->
  map argv (spawned s')
  = (map argv (spawned s)
     ++ map (fun u => flatc_command options (fst (fst u)) (snd (fst u))) l)%list.
Proof.
  revert s. induction l as [|u l IH]; intros s Hdistinct Hgone Hcompiler.
  - intros [= <-]. cbn [map]. rewrite app_nil_r. reflexivity.
  - cbn [for_each]. unfold bind. rewrite build_file_run. cbn zeta.
    fold (unit_target options u).
    cbn [map] in Hdistinct.
    inversion Hdistinct as [|t ts Hu Hdistinct' [Ht Hts]]. subst t ts.
    clear Hdistinct. rename Hdistinct' into Hdistinct.
    assert (forall w1,
               isfile w1 (unit_target options u) = false ->
               (forall v, In v l -> isfile w1 (unit_target options v) = false) ->
               match needs_rebuild w1 (snd (fst u)) (unit_target options u) with
               | Ok stale_json =>
                   match (if stale_json : bool then Ok true
                          else needs_rebuild w1 (fst (fst u)) (unit_target options u))
                   with
                   | Ok true =>
                       run_subprocess
                         (flatc_command options (fst (fst u)) (snd (fst u)))
                         {| os := w1; spawned := spawned s |}
                   | Ok false => (Ok tt, {| os := w1; spawned := spawned s |})
                   | Raise e => (Raise e, {| os := w1; spawned := spawned s |})
                   end
               | Raise e => (Raise e, {| os := w1; spawned := spawned s |})
               end
               = run_subprocess (flatc_command options (fst (fst u)) (snd (fst u)))
                   {| os := w1; spawned := spawned s |}) as Hstale.
    { intros w1 Hw1 _. unfold needs_rebuild at 1. rewrite Hw1. reflexivity. }
    assert (forall w1,
               isfile w1 (unit_target options u) = false ->
               (forall v, In v l -> isfile w1 (unit_target options v) = false) ->
               (let (r, s1) :=
                  run_subprocess (flatc_command options (fst (fst u)) (snd (fst u)))
                    {| os := w1; spawned := spawned s |} in
                match r with
                | Ok _ =>
                    for_each l
                      (fun u0 => build_file options (fst (fst u0)) (snd (fst u0))) s1
                | Raise e => (Raise e, s1)
                end) = (Ok tt, s') ->
               map argv (spawned s')
               = (map argv (spawned s)
                  ++ flatc_command options (fst (fst u)) (snd (fst u))
                     :: map (fun u0 =>
                               flatc_command options (fst (fst u0)) (snd (fst u0)))
                          l)%list) as Hgo.
    { intros w1 Hw1 Hrest.
      pose proof (run_subprocess_log
                    (flatc_command options (fst (fst u)) (snd (fst u)))
                    {| os := w1; spawned := spawned s |}) as Hlog.
      unfold run_subprocess in *. cbn [os spawned] in *.
      destruct (popen _ w1) as [msg|rc w'] eqn:Hp; [discriminate|].
      destruct (rc =? 0) eqn:Hrc; [|discriminate].
      apply Z.eqb_eq in Hrc. subst rc. cbn [snd] in Hlog.
      intros Hloop.
      destruct (Hcompiler u w1 w' (or_introl eq_refl) Hp) as (m & Hw').
      rewrite (IH _ Hdistinct) with (2 := fun v w2 w3 Hv =>
                                           Hcompiler v w2 w3 (or_intror Hv))
                                    (3 := Hloop).
      - cbn [spawned]. rewrite map_app, <- app_assoc. reflexivity.
      - intros v Hv. cbn [os]. unfold isfile. rewrite Hw'.
        rewrite lookup_insert_ne.
        + apply Hrest, Hv.
        + intros Heq. apply Hu. rewrite Heq.
          apply (in_map (unit_target options)), Hv. }
    assert (isfile (os s) (unit_target options u) = false) as Hgu
      by (apply Hgone; left; reflexivity).
    assert (forall v, In v l -> isfile (os s) (unit_target options v) = false)
      as Hgl by (intros v Hv; apply Hgone; right; exact Hv).
    destruct (path_exists (os s) (Path.dirname (unit_target options u))) eqn:Hd.
    + rewrite Hstale by assumption. apply Hgo; assumption.
    + destruct (makedirs _ (os s)) as [w1|] eqn:Hmk; [|discriminate].
      assert (forall p, isfile w1 p = isfile (os s) p) as Hsame
        by (intros p; eapply makedirs_isfile, Hmk).
      assert (isfile w1 (unit_target options u) = false) as Hgu1
        by (rewrite Hsame; exact Hgu).
      assert (forall v, In v l -> isfile w1 (unit_target options v) = false)
        as Hgl1 by (intros v Hv; rewrite Hsame; apply Hgl, Hv).
      rewrite Hstale by assumption. apply Hgo; assumption.
Qed.

(** X22: on a file system where no target of the plan is a regular file,
    such as clean leaves, a build that returns normally has started the
    compiler command of every unit of the plan, in plan order (the targets
    being distinct, and a compiler that exits with 0 having written its
    target and nothing else). *)
Theorem build_of_missing_targets_converts_all (options : CommandOptions)
    (s s' : state) :
  List.NoDup (map (unit_target options) (conversion_plan (os s) options)) ->
  (forall u, In u (conversion_plan (os s) options) ->
             isfile (os s) (unit_target options u) = false) ->
  (forall u w w', In u (conversion_plan (os s) options) ->
      popen (flatc_command options (fst (fst u)) (snd (fst u))) w = Exited 0 w' ->
      exists m, files w' = <[unit_target options u := File m]> (files w)) ->
  generate_flatbuffers_binaries options s = (Ok tt, s') ->
  map argv (spawned s')
  = (map argv (spawned s)
     ++ map (fun u => flatc_command options (fst (fst u)) (snd (fst u)))
          (conversion_plan (os s) options))%list.
Proof.
  intros Hdistinct Hgone Hcompiler. rewrite generate_as_plan.
  apply build_loop_all; assumption.
Qed.

End FullRebuild.

Section FullRebuildAtWork.

Lemma build_of_missing_targets_converts_all_witness :
  map argv
    (spawned (snd (generate_flatbuffers_binaries (H := Sample.host) Sample.options
                     (Sample.start Sample.fresh_project))))
  = [flatc_command Sample.options "schemas/sound_definition.bfbs"
       "proj/sounds/a.json"].
Proof.
  pose proof (build_of_missing_targets_converts_all (H := Sample.host)
                Sample.options (Sample.start Sample.fresh_project)
                (snd (generate_flatbuffers_binaries (H := Sample.host)
                        Sample.options (Sample.start Sample.fresh_project))))
    as Hall.
  cbn [os Sample.start] in Hall. rewrite fresh_project_plan in Hall.
  apply Hall.
  - repeat constructor. intros Hin. inversion Hin.
  - intros u [<-|[]]. vm_compute. reflexivity.
  - intros u w w' [<-|[]] Hp. eexists.
    exact (compiler_exit_0 _ _ _ _ _ _ Hp).
  - vm_compute. reflexivity.
Defined.

End FullRebuildAtWork.

(** ** Building a project given as the current directory twice *)

Section DotProjectTwice.

(** C6: building twice with no change in between should start no compiler
    on the second run; for a project given as [.] the target computed for
    [./effects/reverb.json] is [build/effects/reverbbuildambin] (every dot of
    the path is rewritten, see C3 and C9), a path the compiler, which names
    its artifact after the data file, never writes: the first build returns
    normally and leaves [build/effects/reverb.ambin], the computed target is
    still missing, and the second build, listing the same unit, starts the
    same compiler command again. *)
Theorem second_build_of_dot_project_compiles_again :
  fst (generate_flatbuffers_binaries (H := Sample.host) DotProject.options
         (Sample.start DotProject.project)) = Ok tt
  /\ isfile
       (os (snd (generate_flatbuffers_binaries (H := Sample.host)
                   DotProject.options (Sample.start DotProject.project))))
       "build/effects/reverb.ambin" = true
  /\ conversion_plan (H := Sample.host)
       (os (snd (generate_flatbuffers_binaries (H := Sample.host)
                   DotProject.options (Sample.start DotProject.project))))
       DotProject.options
     = [("schemas/effect_definition.bfbs", "./effects/reverb.json",
         "build/effects/reverbbuildambin")]
  /\ conversion_plan (H := Sample.host) DotProject.project DotProject.options
     = [("schemas/effect_definition.bfbs", "./effects/reverb.json",
         "build/effects/reverbbuildambin")]
  /\ generate_flatbuffers_binaries (H := Sample.host) DotProject.options
       (Sample.start
          (os (snd (generate_flatbuffers_binaries (H := Sample.host)
                      DotProject.options (Sample.start DotProject.project)))))
     <> (Ok tt,
         Sample.start
           (os (snd (generate_flatbuffers_binaries (H := Sample.host)
                       DotProject.options (Sample.start DotProject.project)))))
  /\ fst (generate_flatbuffers_binaries (H := Sample.host) DotProject.options
            (Sample.start
               (os (snd (generate_flatbuffers_binaries (H := Sample.host)
                           DotProject.options
                           (Sample.start DotProject.project))))))
     = Ok tt
  /\ map argv
       (spawned
          (snd (generate_flatbuffers_binaries (H := Sample.host)
                  DotProject.options
                  (Sample.start
                     (os (snd (generate_flatbuffers_binaries (H := Sample.host)
                                 DotProject.options
                                 (Sample.start DotProject.project))))))))
     = [["flatc"; "-o"; "build/effects"; "-I"; "schemas"; "-b";
         "schemas/effect_definition.bfbs"; "./effects/reverb.json"]].
Proof.
  repeat split; try (vm_compute; reflexivity).
  intros Hidle.
  assert (spawned
            (snd (generate_flatbuffers_binaries (H := Sample.host)
                    DotProject.options
                    (Sample.start
                       (os (snd (generate_flatbuffers_binaries (H := Sample.host)
                                   DotProject.options
                                   (Sample.start DotProject.project)))))))
          = []) as Hnone by (rewrite Hidle; reflexivity).
  vm_compute in Hnone. discriminate.
Qed.

End DotProjectTwice.
